(** * SliderR3F: the carousel controller of the 3D model viewer

    The repository is one React component, [Scene], present twice:
    [src/src/Scene.jsx] and a second copy [src/unnamed/part_000].  Its only
    logic is the view state held in three [useState] cells
    ([currentModelIndex], [isLoading], [key]) and the four handlers that
    update them ([handleModelLoad], [nextModel], [previousModel],
    [selectModel]).  The specification calls the state [ViewerState]
    ([activeIndex], [isAssetReady], [generation]) and the handlers
    [notifyAssetLoaded], [selectNext], [selectPrevious], [selectIndex].

    Numbers.  The index and the key are JavaScript numbers, that is binary64
    numbers, that only ever hold integers.  They are embedded as [Z]; [+]
    and [-] are the integer operation followed by the rounding of binary64
    ([JS.round]: to 53 significant bits, ties to the even significand), so
    they are exact up to 2^53 and lose the low bits beyond; [%] is the
    truncated remainder [Z.rem] (the sign of [a % b] is the sign of [a]),
    which binary64 computes exactly.  The camera positions are decimal
    literals that the component never computes with; each is embedded as
    the rational its literal denotes.  The numbers [Model] hands to the
    renderer and adds to on every frame are binary64 numbers proper
    ([float]). *)

From Stdlib Require Import ZArith QArith Bool List String Lia.
From Stdlib Require Import PrimFloat Uint63.
Import ListNotations.

Local Open Scope Z_scope.

(** ** JavaScript operators on integer-valued numbers *)

Module JS.

(** Up to [2^53] in magnitude every integer is a binary64 number. *)
Definition two53 : Z := 2 ^ 53.

(** The binary64 number nearest to the integer [x].  An integer of at most
    53 bits is kept.  A longer one keeps its 53 leading bits [q] and drops
    [e] low bits [r]: it moves to the nearer of [q] and [q + 1], and on a tie
    to the even one.  (Integers of 1024 bits and more, which binary64 turns
    into [Infinity], are out of reach of a counter and of an index.) *)
Definition round (x : Z) : Z :=
  let a := Z.abs x in
  let e := Z.log2 a - 52 in
  if e <=? 0 then x
  else
    let q := a / 2 ^ e in
    let r := a mod 2 ^ e in
    let half := 2 ^ (e - 1) in
    let q' := if r <? half then q
              else if half <? r then q + 1
              else if Z.even q then q else q + 1 in
    Z.sgn x * (q' * 2 ^ e).

(** [a + b] and [a - b] on integer-valued numbers. *)
Definition add (a b : Z) : Z := round (a + b).
Definition sub (a b : Z) : Z := round (a - b).

(** [a % b]: remainder of the truncated division. *)
Definition rem (a b : Z) : Z := Z.rem a b.

(** [a !== b] on two numbers. *)
Definition strict_neq (a b : Z) : bool := negb (a =? b).

End JS.

(** ** Shapes shared by the two source files *)

(** An element of the [models] array. *)
Record ModelEntry : Type := {
  name : string;
  path : string;
  cameraPosition : list Q
}.

(** The three [useState] cells of [Scene], named as in the source. *)
Record SceneState : Type := {
  currentModelIndex : Z;
  isLoading : bool;
  key : Z
}.

(** ** React's [useState] setters

    A setter is called either with the next value or with an updater that
    receives the pending value ([setKey((prev) => prev + 1)]).  A handler is
    a sequence of setter calls; running it transforms the pending state,
    call by call, in program order. *)

Module React.

Inductive SetStateAction (A : Type) : Type :=
| Value (v : A)
| Updater (f : A -> A).
Arguments Value {A} v.
Arguments Updater {A} f.

Definition resolve {A : Type} (a : SetStateAction A) (prev : A) : A :=
  match a with
  | Value v => v
  | Updater f => f prev
  end.

Definition Handler : Type := SceneState -> SceneState.

Definition skip : Handler := fun s => s.

Definition seq (h1 h2 : Handler) : Handler := fun s => h2 (h1 s).

Definition setCurrentModelIndex (a : SetStateAction Z) : Handler :=
  fun s => {| currentModelIndex := resolve a (currentModelIndex s);
              isLoading := isLoading s;
              key := key s |}.

Definition setIsLoading (a : SetStateAction bool) : Handler :=
  fun s => {| currentModelIndex := currentModelIndex s;
              isLoading := resolve a (isLoading s);
              key := key s |}.

Definition setKey (a : SetStateAction Z) : Handler :=
  fun s => {| currentModelIndex := currentModelIndex s;
              isLoading := isLoading s;
              key := resolve a (key s) |}.

End React.

Declare Scope handler_scope.
Delimit Scope handler_scope with handler.
Notation "h1 ;; h2" := (React.seq h1 h2)
  (at level 61, right associativity) : handler_scope.

(** The events the rendered tree can deliver to the component: the two
    [NavigationButton]s, a dot or thumbnail button carrying its [index], and
    the [onLoad] callback of [Model]. *)
Inductive Event : Type :=
| ClickRight
| ClickLeft
| ClickSelect (index : Z)
| ModelLoaded.

(** ** [src/src/Scene.jsx] *)

Module SceneJsx.
Import React.

Definition models : list ModelEntry :=
  [ {| name := "Laptop"; path := "../laptop.glb";
       cameraPosition := [0; 0.5; 0.5]%Q |};
    {| name := "Drone"; path := "../drone.glb";
       cameraPosition := [0; 0.1; 0.3]%Q |};
    {| name := "Headset"; path := "../headset1.glb";
       cameraPosition := [0; 0; 40]%Q |};
    {| name := "Wooden Box"; path := "../wooden_box.glb";
       cameraPosition := [0; 2; 5]%Q |};
    {| name := "VR"; path := "../vr.glb";
       cameraPosition := [0; 0; 2.5]%Q |} ].

(** [models.length] *)
Definition models_length : Z := Z.of_nat (List.length models).

(** The initial values passed to the three [useState] calls. *)
Definition mount : SceneState :=
  {| currentModelIndex := 0; isLoading := true; key := 0 |}.

Section Scene.

(** The values the three [useState] calls returned in the render whose
    closures the handlers are. *)
Variable render : SceneState.

Definition handleModelLoad : Handler :=
  setIsLoading (Value false).

Definition nextModel : Handler :=
  if negb (isLoading render) then
    (setIsLoading (Value true) ;;
     setCurrentModelIndex
       (Updater (fun prev => JS.rem (JS.add prev 1) models_length)) ;;
     setKey (Updater (fun prev => JS.add prev 1)))%handler
  else skip.

Definition previousModel : Handler :=
  if negb (isLoading render) then
    (setIsLoading (Value true) ;;
     setCurrentModelIndex
       (Updater (fun prev =>
                   JS.rem (JS.add (JS.sub prev 1) models_length)
                          models_length)) ;;
     setKey (Updater (fun prev => JS.add prev 1)))%handler
  else skip.

Definition selectModel (index : Z) : Handler :=
  if negb (isLoading render)
     && JS.strict_neq index (currentModelIndex render) then
    (setIsLoading (Value true) ;;
     setCurrentModelIndex (Value index) ;;
     setKey (Updater (fun prev => JS.add prev 1)))%handler
  else skip.

(** The bindings of the returned tree: [onClick={nextModel}] on the right
    button, [onClick={previousModel}] on the left one,
    [onClick={() => selectModel(index)}] on the dots and thumbnails, and
    [onLoad={handleModelLoad}] on [Model]. *)
Definition onEvent (e : Event) : Handler :=
  match e with
  | ClickRight => nextModel
  | ClickLeft => previousModel
  | ClickSelect index => selectModel index
  | ModelLoaded => handleModelLoad
  end.

End Scene.

(** One event: React runs the handler of the committed render, whose
    closure values are the current state, on that state. *)
Definition step (e : Event) (s : SceneState) : SceneState :=
  onEvent s e s.

End SceneJsx.

(** ** [src/unnamed/part_000] *)

Module Part000.
Import React.

Definition models : list ModelEntry :=
  [ {| name := "Laptop"; path := "../laptop.glb";
       cameraPosition := [0; 0.5; 0.5]%Q |};
    {| name := "Drone"; path := "../drone.glb";
       cameraPosition := [0; 0.1; 0.3]%Q |};
    {| name := "Headset"; path := "../headset1.glb";
       cameraPosition := [0; 0; 40]%Q |};
    {| name := "Wooden Box"; path := "../wooden_box.glb";
       cameraPosition := [0; 2; 5]%Q |};
    {| name := "VR"; path := "../vr.glb";
       cameraPosition := [0; 0; 2.5]%Q |} ].

Definition models_length : Z := Z.of_nat (List.length models).

Definition mount : SceneState :=
  {| currentModelIndex := 0; isLoading := true; key := 0 |}.

Section Scene.

Variable render : SceneState.

Definition handleModelLoad : Handler :=
  setIsLoading (Value false).

Definition nextModel : Handler :=
  if negb (isLoading render) then
    (setIsLoading (Value true) ;;
     setCurrentModelIndex
       (Updater (fun prev => JS.rem (JS.add prev 1) models_length)) ;;
     setKey (Updater (fun prev => JS.add prev 1)))%handler
  else skip.

Definition previousModel : Handler :=
  if negb (isLoading render) then
    (setIsLoading (Value true) ;;
     setCurrentModelIndex
       (Updater (fun prev =>
                   JS.rem (JS.add (JS.sub prev 1) models_length)
                          models_length)) ;;
     setKey (Updater (fun prev => JS.add prev 1)))%handler
  else skip.

Definition selectModel (index : Z) : Handler :=
  if negb (isLoading render)
     && JS.strict_neq index (currentModelIndex render) then
    (setIsLoading (Value true) ;;
     setCurrentModelIndex (Value index) ;;
     setKey (Updater (fun prev => JS.add prev 1)))%handler
  else skip.

Definition onEvent (e : Event) : Handler :=
  match e with
  | ClickRight => nextModel
  | ClickLeft => previousModel
  | ClickSelect index => selectModel index
  | ModelLoaded => handleModelLoad
  end.

End Scene.

Definition step (e : Event) (s : SceneState) : SceneState :=
  onEvent s e s.

End Part000.

(** ** The specification's vocabulary

    [ViewerState] is [SceneState] read through three projections:
    [activeIndex] is [currentModelIndex], [generation] is [key], and
    [isAssetReady] is the negation of [isLoading].  The four operations are
    the four events of [src/src/Scene.jsx]. *)

Module ViewerController.

Definition catalogLength : Z := SceneJsx.models_length.

Definition activeIndex (s : SceneState) : Z := currentModelIndex s.
Definition isAssetReady (s : SceneState) : bool := negb (isLoading s).
Definition generation (s : SceneState) : Z := key s.

(** The state written as the triple the specification uses. *)
Definition ViewerState (i : Z) (ready : bool) (g : Z) : SceneState :=
  {| currentModelIndex := i; isLoading := negb ready; key := g |}.

Definition selectNext : SceneState -> SceneState :=
  SceneJsx.step ClickRight.
Definition selectPrevious : SceneState -> SceneState :=
  SceneJsx.step ClickLeft.
Definition selectIndex (i : Z) : SceneState -> SceneState :=
  SceneJsx.step (ClickSelect i).
Definition notifyAssetLoaded : SceneState -> SceneState :=
  SceneJsx.step ModelLoaded.

(** The range the data model gives [activeIndex]. *)
Definition in_range (i : Z) : Prop := 0 <= i < catalogLength.
Definition index_valid (s : SceneState) : Prop := in_range (activeIndex s).

(** A sequence of operations, oldest first. *)
Definition run (evs : list Event) (s : SceneState) : SceneState :=
  fold_left (fun acc e => SceneJsx.step e acc) evs s.

(** The states a sequence passes through, one per operation. *)
Fixpoint trace (evs : list Event) (s : SceneState) : list SceneState :=
  match evs with
  | [] => []
  | e :: evs' => let s' := SceneJsx.step e s in s' :: trace evs' s'
  end.

(** A transition action whose guard passes: the condition of the [if] in
    [nextModel], [previousModel] and [selectModel].  [handleModelLoad] is
    not a transition action. *)
Definition accepted (e : Event) (s : SceneState) : bool :=
  match e with
  | ClickRight | ClickLeft => isAssetReady s
  | ClickSelect i => isAssetReady s && negb (i =? activeIndex s)
  | ModelLoaded => false
  end.

(** An operation whose argument, if any, is an index of the catalog. *)
Definition arg_in_range (e : Event) : Prop :=
  match e with
  | ClickSelect i => in_range i
  | _ => True
  end.

End ViewerController.

Import ViewerController.

(** ** JavaScript values used by the rendered tree *)

Module JSLib.

(** The line feed inside a template literal that spans two lines. *)
Definition LF : string := String (Ascii.ascii_of_nat 10) EmptyString.

(** [a === b] on two numbers. *)
Definition strict_eq (a b : Z) : bool := a =? b.

(** [arr[i]] for an integer-valued number [i]: [undefined] (here [None])
    when [i] is not an index of the array. *)
Definition at_index {A : Type} (arr : list A) (i : Z) : option A :=
  if i <? 0 then None else nth_error arr (Z.to_nat i).

(** [s.includes(sub)]: [sub] occurs in [s] at some offset. *)
Fixpoint includes (s sub : string) : bool :=
  if String.prefix sub s then true
  else match s with
       | EmptyString => false
       | String _ s' => includes s' sub
       end.

(** [Math.PI]: the binary64 number nearest to pi. *)
Definition Math_PI : float := 0x1.921fb54442d18p+1%float.

(** An evaluation that either yields a value or throws the [TypeError] of
    reading a property of [undefined]. *)
Inductive Result (A : Type) : Type :=
| Ok (a : A)
| TypeError.
Arguments Ok {A} a.
Arguments TypeError {A}.

Definition bind {A B : Type} (r : Result A) (k : A -> Result B) : Result B :=
  match r with
  | Ok a => k a
  | TypeError => TypeError
  end.

Notation "'let*' x ':=' r 'in' k" := (bind r (fun x => k))
  (at level 10, x name, r at level 100, k at level 200).

(** [o.f] where [o] is an array element that may be [undefined]. *)
Definition member {A B : Type} (o : option A) (f : A -> B) : Result B :=
  match o with
  | Some a => Ok (f a)
  | None => TypeError
  end.

(** [arr.map((x, index) => f x index)], the indices counted from [i]. *)
Fixpoint map_from {A B : Type} (f : A -> Z -> Result B) (i : Z)
    (arr : list A) : Result (list B) :=
  match arr with
  | [] => Ok []
  | x :: rest =>
      let* y := f x i in
      let* ys := map_from f (i + 1) rest in
      Ok (y :: ys)
  end.

Definition map {A B : Type} (f : A -> Z -> Result B) (arr : list A)
    : Result (list B) :=
  map_from f 0 arr.

End JSLib.

(** ** Elements of the rendered tree

    Only what an expression of the source computes is kept: the props given
    in braces and the text children.  Wrapper elements and class names that
    are plain string literals carry no computation and are left out. *)

Inductive Icon : Type :=
| ChevronLeft
| ChevronRight.

Inductive Children : Type :=
| IconChild (icon : Icon)
| Paragraph (text : string)
| NoChildren.

(** A [<button>]: its [onClick] handler is named by the event it handles. *)
Record ButtonEl : Type := {
  reactKey : option Z;
  onClick : Event;
  disabled : bool;
  className : string;
  ariaLabel : option string;
  children : Children
}.

(** The [camera] prop of [<Canvas>]. *)
Record Camera : Type := {
  fov : Q;
  near : Q;
  far : Q;
  position : list Q
}.

(** The props of [<primitive>] that [Model] computes. *)
Module Primitive.
Record props : Type := {
  position : list float;
  rotation : list float
}.
End Primitive.

(** The object behind [modelRef.current], as far as [Model] touches it: its
    position and its rotation, each with the fields [x], [y], [z]. *)
Module THREE.
Record XYZ : Type := {
  x : float;
  y : float;
  z : float
}.
Record Object3D : Type := {
  position : XYZ;
  rotation : XYZ
}.
End THREE.

(** What a [Model] component amounts to: the props of the [<primitive>] it
    returns, and the callback it registers with [useFrame], if it registers
    one.  The callback gets the content of [modelRef.current] ([None] for
    [null]) and the [delta] of the frame, and leaves the new content. *)
Record ModelOut : Type := {
  primitive : Primitive.props;
  useFrame : option (option THREE.Object3D -> float -> option THREE.Object3D)
}.

(** The [<Model>] element inside the canvas. *)
Record ModelEl : Type := {
  modelPath : string;
  onLoad : Event
}.

(** What [Scene] returns, in document order. *)
Record SceneView : Type := {
  title : string;
  leftButton : ButtonEl;
  spinner : bool;
  canvasKey : Z;
  camera : Camera;
  model : ModelEl;
  rightButton : ButtonEl;
  dots : list ButtonEl;
  thumbnails : list ButtonEl
}.

(** ** [src/src/Scene.jsx]: the components *)

Module SceneJsxView.
Import JSLib.
Import SceneJsx.
Local Open Scope string_scope.

(** The callback [Model] gives to [useFrame]: when the ref holds the object,
    [rotation.y += delta * 0.5]. *)
Definition Model_frame (current : option THREE.Object3D) (delta : float)
    : option THREE.Object3D :=
  match current with
  | Some object =>
      Some {| THREE.position := THREE.position object;
              THREE.rotation :=
                {| THREE.x := THREE.x (THREE.rotation object);
                   THREE.y := (THREE.y (THREE.rotation object)
                               + delta * 0.5)%float;
                   THREE.z := THREE.z (THREE.rotation object) |} |}
  | None => None
  end.

Definition Model (modelPath : string) : ModelOut :=
  {| primitive :=
       {| Primitive.position :=
            if includes modelPath "vr.glb"
               || includes modelPath "wooden_box.glb"
            then [0; -1; 0]%float
            else [0; 0; 0]%float;
          Primitive.rotation :=
            if includes modelPath "laptop.glb"
            then [0; - Math_PI / 4; 0]%float
            else [0; 0; 0]%float |};
     useFrame := Some Model_frame |}.

Definition NavigationButton (direction : string) (onClick : Event)
    (disabled : bool) : ButtonEl :=
  let Icon := if String.eqb direction "left" then ChevronLeft
              else ChevronRight in
  {| reactKey := None;
     onClick := onClick;
     disabled := disabled;
     className :=
       "bg-white/10 hover:bg-white/20 p-2 md:p-4 rounded-full backdrop-blur-sm transition-all "
       ++ LF ++ "        "
       ++ (if disabled then "opacity-50 cursor-not-allowed"
           else "cursor-pointer");
     ariaLabel := None;
     children := IconChild Icon |}.

Section Scene.

Variable render : SceneState.

(** The [return] of [Scene].  [ClickLeft], [ClickRight], [ClickSelect index]
    and [ModelLoaded] stand for the closures [previousModel], [nextModel],
    [() => selectModel(index)] and [handleModelLoad] of this render. *)
Definition Scene : Result SceneView :=
  let* title_ :=
    member (at_index models (currentModelIndex render)) name in
  let* position_ :=
    member (at_index models (currentModelIndex render)) cameraPosition in
  let* modelPath_ :=
    member (at_index models (currentModelIndex render)) path in
  let* dots_ :=
    map (fun _ index =>
           let* name_ := member (at_index models index) name in
           Ok {| reactKey := Some index;
                 onClick := ClickSelect index;
                 disabled := isLoading render;
                 className :=
                   "w-3 h-3 md:w-4 md:h-4 rounded-full transition-all "
                   ++ (if strict_eq index (currentModelIndex render)
                       then "bg-white scale-110"
                       else "bg-white/30 hover:bg-white/50")
                   ++ " "
                   ++ (if isLoading render then "cursor-not-allowed"
                       else "cursor-pointer");
                 ariaLabel := Some ("View " ++ name_);
                 children := NoChildren |})
        models in
  let* thumbnails_ :=
    map (fun model index =>
           Ok {| reactKey := Some index;
                 onClick := ClickSelect index;
                 disabled := isLoading render;
                 className :=
                   "p-2 md:p-4 rounded-lg transition-all "
                   ++ (if strict_eq index (currentModelIndex render)
                       then "bg-white/20 ring-2 ring-white"
                       else "bg-white/5 hover:bg-white/10")
                   ++ " "
                   ++ (if isLoading render
                       then "cursor-not-allowed opacity-50"
                       else "cursor-pointer");
                 ariaLabel := None;
                 children := Paragraph (name model) |})
        models in
  Ok {| title := title_;
        leftButton := NavigationButton "left" ClickLeft (isLoading render);
        spinner := isLoading render;
        canvasKey := key render;
        camera := {| fov := 50%Q; near := 0.1%Q; far := 1000%Q;
                     position := position_ |};
        model := {| modelPath := modelPath_; onLoad := ModelLoaded |};
        rightButton := NavigationButton "right" ClickRight (isLoading render);
        dots := dots_;
        thumbnails := thumbnails_ |}.

End Scene.

End SceneJsxView.

(** ** [src/unnamed/part_000]: the components *)

Module Part000View.
Import JSLib.
Import Part000.
Local Open Scope string_scope.

(** This copy registers no frame callback. *)
Definition Model (modelPath : string) : ModelOut :=
  {| primitive :=
       {| Primitive.position :=
            if includes modelPath "vr.glb"
               || includes modelPath "wooden_box.glb"
            then [0; -1; 0]%float
            else [0; 0; 0]%float;
          Primitive.rotation :=
            if includes modelPath "laptop.glb"
            then [0; - Math_PI / 4; 0]%float
            else [0; 0; 0]%float |};
     useFrame := None |}.

Definition NavigationButton (direction : string) (onClick : Event)
    (disabled : bool) : ButtonEl :=
  let Icon := if String.eqb direction "left" then ChevronLeft
              else ChevronRight in
  {| reactKey := None;
     onClick := onClick;
     disabled := disabled;
     className :=
       "bg-white/10 hover:bg-white/20 p-4 rounded-full backdrop-blur-sm transition-all "
       ++ LF ++ "        "
       ++ (if disabled then "opacity-50 cursor-not-allowed"
           else "cursor-pointer");
     ariaLabel := None;
     children := IconChild Icon |}.

Section Scene.

Variable render : SceneState.

Definition Scene : Result SceneView :=
  let* title_ :=
    member (at_index models (currentModelIndex render)) name in
  let* position_ :=
    member (at_index models (currentModelIndex render)) cameraPosition in
  let* modelPath_ :=
    member (at_index models (currentModelIndex render)) path in
  let* dots_ :=
    map (fun _ index =>
           let* name_ := member (at_index models index) name in
           Ok {| reactKey := Some index;
                 onClick := ClickSelect index;
                 disabled := isLoading render;
                 className :=
                   "w-4 h-4 rounded-full transition-all "
                   ++ (if strict_eq index (currentModelIndex render)
                       then "bg-white scale-110"
                       else "bg-white/30 hover:bg-white/50")
                   ++ " "
                   ++ (if isLoading render then "cursor-not-allowed"
                       else "cursor-pointer");
                 ariaLabel := Some ("View " ++ name_);
                 children := NoChildren |})
        models in
  let* thumbnails_ :=
    map (fun model index =>
           Ok {| reactKey := Some index;
                 onClick := ClickSelect index;
                 disabled := isLoading render;
                 className :=
                   "p-4 rounded-lg transition-all "
                   ++ (if strict_eq index (currentModelIndex render)
                       then "bg-white/20 ring-2 ring-white"
                       else "bg-white/5 hover:bg-white/10")
                   ++ " "
                   ++ (if isLoading render
                       then "cursor-not-allowed opacity-50"
                       else "cursor-pointer");
                 ariaLabel := None;
                 children := Paragraph (name model) |})
        models in
  Ok {| title := title_;
        leftButton := NavigationButton "left" ClickLeft (isLoading render);
        spinner := isLoading render;
        canvasKey := key render;
        camera := {| fov := 50%Q; near := 0.1%Q; far := 1000%Q;
                     position := position_ |};
        model := {| modelPath := modelPath_; onLoad := ModelLoaded |};
        rightButton := NavigationButton "right" ClickRight (isLoading render);
        dots := dots_;
        thumbnails := thumbnails_ |}.

End Scene.

End Part000View.

(** ** The page as the user meets it

    The browser dispatches no click to a [<button disabled>]; every other
    button of the tree can be clicked, and [Model] calls its [onLoad] from an
    effect once the asset is there. *)

Module UI.
Import JSLib.

(** Every [<button>] of the tree, in document order. *)
Definition buttons (v : SceneView) : list ButtonEl :=
  leftButton v :: rightButton v :: dots v ++ thumbnails v.

(** The events a click on the page can deliver. *)
Definition clickable (v : SceneView) : list Event :=
  List.map onClick (filter (fun b => negb (disabled b)) (buttons v)).

(** The button carries the classes the source reserves for the dot or the
    thumbnail whose [index === currentModelIndex]. *)
Definition highlighted (b : ButtonEl) : bool :=
  includes (className b) "bg-white scale-110"
  || includes (className b) "bg-white/20 ring-2 ring-white".

(** The states of [src/src/Scene.jsx] that the page can reach: from the
    mount state, by a click the rendered tree can deliver or by the [onLoad]
    of the rendered [Model].  A render that throws ends the run. *)
Inductive reachable : SceneState -> Prop :=
| reach_mount : reachable SceneJsx.mount
| reach_click (s : SceneState) (v : SceneView) (e : Event) :
    reachable s -> SceneJsxView.Scene s = Ok v -> In e (clickable v) ->
    reachable (SceneJsx.step e s)
| reach_load (s : SceneState) (v : SceneView) :
    reachable s -> SceneJsxView.Scene s = Ok v ->
    reachable (SceneJsx.step (onLoad (model v)) s).

(** The tree with the class names blanked. *)
Definition unstyled_button (b : ButtonEl) : ButtonEl :=
  {| reactKey := reactKey b;
     onClick := onClick b;
     disabled := disabled b;
     className := EmptyString;
     ariaLabel := ariaLabel b;
     children := children b |}.

Definition unstyled (v : SceneView) : SceneView :=
  {| title := title v;
     leftButton := unstyled_button (leftButton v);
     spinner := spinner v;
     canvasKey := canvasKey v;
     camera := camera v;
     model := model v;
     rightButton := unstyled_button (rightButton v);
     dots := List.map unstyled_button (dots v);
     thumbnails := List.map unstyled_button (thumbnails v) |}.

Definition unstyled_result (r : Result SceneView) : Result SceneView :=
  match r with
  | Ok v => Ok (unstyled v)
  | TypeError => TypeError
  end.

End UI.

(** ** The rounding of binary64 on integers *)

Lemma two53_val : JS.two53 = 9007199254740992.
Proof. reflexivity. Qed.

Lemma round_opp (x : Z) : JS.round (- x) = - JS.round x.
Proof.
  unfold JS.round. rewrite Z.abs_opp, Z.sgn_opp.
  destruct (Z.log2 (Z.abs x) - 52 <=? 0); [reflexivity | ].
  cbv zeta. lia.
Qed.

(** Integers up to 2^53 in magnitude are kept. *)
Lemma round_exact (x : Z) : - JS.two53 <= x <= JS.two53 -> JS.round x = x.
Proof.
  intros H. unfold JS.round.
  destruct (Z.leb_spec (Z.log2 (Z.abs x) - 52) 0) as [_ | He];
    [reflexivity | ].
  assert (Ha : Z.abs x = JS.two53).
  { assert (Hl : 53 <= Z.log2 (Z.abs x)) by lia.
    assert (Hp : 0 < Z.abs x).
    { destruct (Z.eq_dec (Z.abs x) 0) as [E | E];
        [rewrite E in Hl; cbn in Hl; lia | lia]. }
    pose proof (Z.log2_spec (Z.abs x) Hp) as [Hlo _].
    assert (2 ^ 53 <= 2 ^ Z.log2 (Z.abs x))
      by (apply Z.pow_le_mono_r; lia).
    unfold JS.two53 in *. lia. }
  unfold JS.two53 in *.
  destruct (Z.abs_eq_or_opp x) as [E | E]; rewrite E in Ha.
  - rewrite Ha. vm_compute. reflexivity.
  - assert (Hx : x = - 2 ^ 53) by lia. rewrite Hx. vm_compute. reflexivity.
Qed.

(** Beyond 2^53 the rounding stays beyond 2^53. *)
Lemma round_large (x : Z) : JS.two53 <= x -> JS.two53 <= JS.round x.
Proof.
  intros H. unfold JS.round, JS.two53 in *.
  assert (Hx : Z.abs x = x) by lia. rewrite Hx.
  assert (Hs : Z.sgn x = 1) by (apply Z.sgn_pos; lia). rewrite Hs.
  assert (Hl : 53 <= Z.log2 x) by (apply Z.log2_le_pow2; lia).
  destruct (Z.leb_spec (Z.log2 x - 52) 0) as [He | He]; [lia | ].
  set (e := Z.log2 x - 52) in *.
  pose proof (Z.log2_spec x ltac:(lia)) as [Hlo _].
  assert (Hq : 2 ^ 52 <= x / 2 ^ e).
  { apply Z.div_le_lower_bound; [apply Z.pow_pos_nonneg; lia | ].
    rewrite <- Z.pow_add_r by lia. replace (e + 52) with (Z.log2 x) by lia.
    exact Hlo. }
  assert (Hq' : 2 ^ 52 <=
                (if x mod 2 ^ e <? 2 ^ (e - 1) then x / 2 ^ e
                 else if 2 ^ (e - 1) <? x mod 2 ^ e then x / 2 ^ e + 1
                 else if Z.even (x / 2 ^ e) then x / 2 ^ e
                      else x / 2 ^ e + 1)).
  { destruct (x mod 2 ^ e <? 2 ^ (e - 1)); [lia | ].
    destruct (2 ^ (e - 1) <? x mod 2 ^ e); [lia | ].
    destruct (Z.even (x / 2 ^ e)); lia. }
  assert (He2 : 2 <= 2 ^ e).
  { change 2 with (2 ^ 1) at 1. apply Z.pow_le_mono_r; lia. }
  cbv zeta. nia.
Qed.

Lemma round_small (x : Z) : x <= - JS.two53 -> JS.round x <= - JS.two53.
Proof.
  intros H. replace x with (- (- x)) by lia. rewrite round_opp.
  pose proof (round_large (- x)). lia.
Qed.

(** Rounding does not cross an integer that binary64 holds exactly. *)
Lemma round_le_const (c x : Z) :
  - JS.two53 <= c <= JS.two53 -> x <= c -> JS.round x <= c.
Proof.
  intros Hc Hx. destruct (Z_le_gt_dec (- JS.two53) x) as [Hlo | Hlo].
  - rewrite round_exact by lia. exact Hx.
  - pose proof (round_small x). lia.
Qed.

Lemma round_ge_const (c x : Z) :
  - JS.two53 <= c <= JS.two53 -> c <= x -> c <= JS.round x.
Proof.
  intros Hc Hx. destruct (Z_le_gt_dec x JS.two53) as [Hhi | Hhi].
  - rewrite round_exact by lia. exact Hx.
  - pose proof (round_large x). lia.
Qed.

Lemma add_exact (a b : Z) :
  - JS.two53 <= a + b <= JS.two53 -> JS.add a b = a + b.
Proof. apply round_exact. Qed.

Lemma sub_exact (a b : Z) :
  - JS.two53 <= a - b <= JS.two53 -> JS.sub a b = a - b.
Proof. apply round_exact. Qed.

(** The successor is exact from -2^53 up to, but not at, 2^53. *)
Lemma succ_exact (k : Z) :
  - JS.two53 <= k < JS.two53 -> JS.add k 1 = k + 1.
Proof. intros H. apply add_exact. rewrite two53_val in *. lia. Qed.

Lemma succ_at_two53 : JS.add JS.two53 1 = JS.two53.
Proof. reflexivity. Qed.

(** On sample operands the kernel's binary64 addition and subtraction give
    the number [JS.add] and [JS.sub] give: below, at and beyond 2^53, with
    the low bits dropped, rounded down, rounded up and on ties. *)
Lemma add_sub_match_binary64_on_samples :
  let f (x : Z) : float := PrimFloat.of_uint63 (Uint63.of_Z x) in
  forallb (fun '(a, b) =>
             PrimFloat.eqb (f a + f b)%float (f (JS.add a b))
             && PrimFloat.eqb (f a - f b)%float (f (JS.sub a b)))
          [ (0, 0); (7, 1); (456, 123); (2 ^ 53 - 1, 1); (2 ^ 53, 1);
            (2 ^ 53, 2); (2 ^ 53, 3); (2 ^ 53 + 2, 1); (2 ^ 53 + 2, 5);
            (2 ^ 54, 1); (2 ^ 54, 2); (2 ^ 54, 3); (2 ^ 54 + 4, 2);
            (2 ^ 54 - 2, 1); (2 ^ 60, 1000); (2 ^ 60, 2 ^ 7);
            (2 ^ 60 + 2 ^ 8, 2 ^ 7); (2 ^ 61, 2 ^ 61 - 2 ^ 9) ] = true.
Proof. vm_compute. reflexivity. Qed.

(** ** Wrap-around arithmetic *)

Section WrapAround.

Variable n : Z.
Hypothesis n_pos : 0 < n.

Lemma rem_succ_mod (i : Z) :
  0 <= i -> JS.rem (i + 1) n = (i + 1) mod n.
Proof.
  intros Hi. unfold JS.rem. apply Z.rem_mod_nonneg; lia.
Qed.

Lemma rem_pred_mod (i : Z) :
  0 <= i -> JS.rem (i - 1 + n) n = (i - 1 + n) mod n.
Proof.
  intros Hi. unfold JS.rem. apply Z.rem_mod_nonneg; lia.
Qed.

Lemma rem_succ_range (i : Z) :
  0 <= i < n -> 0 <= JS.rem (i + 1) n < n.
Proof.
  intros Hi. rewrite rem_succ_mod by lia. apply Z.mod_pos_bound; lia.
Qed.

Lemma rem_pred_range (i : Z) :
  0 <= i < n -> 0 <= JS.rem (i - 1 + n) n < n.
Proof.
  intros Hi. rewrite rem_pred_mod by lia. apply Z.mod_pos_bound; lia.
Qed.

Lemma rem_pred_zero : JS.rem (0 - 1 + n) n = n - 1.
Proof.
  rewrite rem_pred_mod by lia.
  replace (0 - 1 + n) with (n - 1) by lia. apply Z.mod_small; lia.
Qed.

Lemma rem_pred_succ (i : Z) :
  0 <= i < n -> JS.rem (JS.rem (i + 1) n - 1 + n) n = i.
Proof.
  intros Hi.
  destruct (Z.eq_dec (i + 1) n) as [Heq | Hne].
  - rewrite Heq. unfold JS.rem at 2. rewrite Z.rem_same by lia.
    rewrite rem_pred_zero. lia.
  - assert (Hs : JS.rem (i + 1) n = i + 1).
    { rewrite rem_succ_mod by lia. apply Z.mod_small; lia. }
    rewrite Hs, rem_pred_mod by lia.
    replace (i + 1 - 1 + n) with (i + 1 * n) by lia.
    rewrite Z.mod_add by lia. apply Z.mod_small; lia.
Qed.

End WrapAround.

(** ** The handlers, case by case *)

Lemma models_length_5 : SceneJsx.models_length = 5.
Proof. reflexivity. Qed.

Lemma catalogLength_pos : 0 < catalogLength.
Proof. reflexivity. Qed.

Lemma nextModel_ready (s : SceneState) :
  isLoading s = false ->
  SceneJsx.step ClickRight s =
  {| currentModelIndex :=
       JS.rem (JS.add (currentModelIndex s) 1) catalogLength;
     isLoading := true;
     key := JS.add (key s) 1 |}.
Proof.
  intros H. unfold SceneJsx.step, SceneJsx.onEvent, SceneJsx.nextModel.
  rewrite H. reflexivity.
Qed.

Lemma previousModel_ready (s : SceneState) :
  isLoading s = false ->
  SceneJsx.step ClickLeft s =
  {| currentModelIndex :=
       JS.rem (JS.add (JS.sub (currentModelIndex s) 1) catalogLength)
              catalogLength;
     isLoading := true;
     key := JS.add (key s) 1 |}.
Proof.
  intros H. unfold SceneJsx.step, SceneJsx.onEvent, SceneJsx.previousModel.
  rewrite H. reflexivity.
Qed.

Lemma selectModel_ready (index : Z) (s : SceneState) :
  isLoading s = false -> index <> currentModelIndex s ->
  SceneJsx.step (ClickSelect index) s =
  {| currentModelIndex := index; isLoading := true;
     key := JS.add (key s) 1 |}.
Proof.
  intros H Hne. unfold SceneJsx.step, SceneJsx.onEvent, SceneJsx.selectModel.
  rewrite H. unfold JS.strict_neq.
  destruct (Z.eqb_spec index (currentModelIndex s)) as [He | _];
    [contradiction | reflexivity].
Qed.

Lemma selectModel_same (s : SceneState) :
  SceneJsx.step (ClickSelect (currentModelIndex s)) s = s.
Proof.
  unfold SceneJsx.step, SceneJsx.onEvent, SceneJsx.selectModel, JS.strict_neq.
  rewrite Z.eqb_refl, andb_false_r. reflexivity.
Qed.

Lemma click_loading (e : Event) (s : SceneState) :
  isLoading s = true -> e <> ModelLoaded -> SceneJsx.step e s = s.
Proof.
  intros H Hne. unfold SceneJsx.step.
  destruct e; cbn [SceneJsx.onEvent];
    unfold SceneJsx.nextModel, SceneJsx.previousModel, SceneJsx.selectModel;
    try rewrite H; try reflexivity.
  contradiction.
Qed.

Lemma handleModelLoad_eq (s : SceneState) :
  SceneJsx.step ModelLoaded s =
  {| currentModelIndex := currentModelIndex s;
     isLoading := false;
     key := key s |}.
Proof. reflexivity. Qed.

Lemma isAssetReady_true (s : SceneState) :
  isAssetReady s = true <-> isLoading s = false.
Proof. unfold isAssetReady. destruct (isLoading s); cbn; intuition congruence. Qed.

Lemma isAssetReady_false (s : SceneState) :
  isAssetReady s = false <-> isLoading s = true.
Proof. unfold isAssetReady. destruct (isLoading s); cbn; intuition congruence. Qed.

(** On an index of the catalog the additions of the two wrap-arounds are
    exact. *)
Lemma succ_index_exact (i : Z) :
  in_range i -> JS.add i 1 = i + 1.
Proof.
  unfold in_range. change catalogLength with 5. intros H.
  apply add_exact. rewrite two53_val. lia.
Qed.

Lemma pred_index_exact (i : Z) :
  in_range i ->
  JS.add (JS.sub i 1) catalogLength = i - 1 + catalogLength.
Proof.
  unfold in_range. change catalogLength with 5. intros H.
  rewrite sub_exact by (rewrite two53_val; lia).
  apply add_exact. rewrite two53_val. lia.
Qed.

Lemma nextModel_valid (s : SceneState) :
  isLoading s = false -> index_valid s ->
  SceneJsx.step ClickRight s =
  {| currentModelIndex := JS.rem (currentModelIndex s + 1) catalogLength;
     isLoading := true;
     key := JS.add (key s) 1 |}.
Proof.
  intros H Hv. rewrite nextModel_ready by assumption.
  rewrite succ_index_exact by exact Hv. reflexivity.
Qed.

Lemma previousModel_valid (s : SceneState) :
  isLoading s = false -> index_valid s ->
  SceneJsx.step ClickLeft s =
  {| currentModelIndex :=
       JS.rem (currentModelIndex s - 1 + catalogLength) catalogLength;
     isLoading := true;
     key := JS.add (key s) 1 |}.
Proof.
  intros H Hv. rewrite previousModel_ready by assumption.
  rewrite pred_index_exact by exact Hv. reflexivity.
Qed.

(** Closes a goal [in_range i] or [index_valid s] at concrete numbers. *)
Ltac range_by_computation :=
  cbv; split; [ let H := fresh in intro H; discriminate H | reflexivity ].

(** ** The index invariant *)

Lemma step_preserves_valid (e : Event) (s : SceneState) :
  arg_in_range e -> index_valid s -> index_valid (SceneJsx.step e s).
Proof.
  intros Harg Hs.
  destruct (isLoading s) eqn:Hl.
  - destruct e; try (rewrite click_loading by congruence; exact Hs).
    rewrite handleModelLoad_eq. exact Hs.
  - destruct e as [ | | index | ].
    + rewrite nextModel_valid by assumption.
      apply (rem_succ_range catalogLength catalogLength_pos). exact Hs.
    + rewrite previousModel_valid by assumption.
      apply (rem_pred_range catalogLength catalogLength_pos). exact Hs.
    + destruct (Z.eq_dec index (currentModelIndex s)) as [-> | Hne].
      * rewrite selectModel_same. exact Hs.
      * rewrite selectModel_ready by assumption. exact Harg.
    + rewrite handleModelLoad_eq. exact Hs.
Qed.

Lemma run_preserves_valid (evs : list Event) :
  Forall arg_in_range evs ->
  forall s, index_valid s -> index_valid (run evs s).
Proof.
  induction 1 as [ | e evs He _ IH]; intros s Hs.
  - exact Hs.
  - cbn [run fold_left]. apply IH. apply step_preserves_valid; assumption.
Qed.

Lemma mount_valid : index_valid SceneJsx.mount.
Proof. range_by_computation. Qed.

(** C1, as amended.  From the mount state, every sequence of selectNext,
    selectPrevious, selectIndex(i) and notifyAssetLoaded in which each
    selectIndex is given an index of the catalog leaves activeIndex in
    [0, catalogLength). *)
Theorem activeIndex_in_range_reachable (evs : list Event) :
  Forall arg_in_range evs -> index_valid (run evs SceneJsx.mount).
Proof.
  intros H. apply run_preserves_valid; [exact H | exact mount_valid].
Qed.

Lemma activeIndex_in_range_reachable_witness :
  let evs := [ModelLoaded; ClickSelect 4; ModelLoaded; ClickRight] in
  Forall arg_in_range evs /\ index_valid (run evs SceneJsx.mount).
Proof.
  cbv zeta.
  assert (H : Forall arg_in_range
                [ModelLoaded; ClickSelect 4; ModelLoaded; ClickRight]).
  { repeat (apply Forall_cons; [first [exact I | range_by_computation] | ]).
    apply Forall_nil. }
  split; [exact H | exact (activeIndex_in_range_reachable _ H)].
Defined.

(** C1, as stated, fails: selectModel stores whatever index it is given.
    After notifyAssetLoaded, selectIndex(7) on the 5-entry catalog leaves
    activeIndex = 7. *)
Lemma activeIndex_out_of_range_counterexample :
  run [ModelLoaded; ClickSelect 7] SceneJsx.mount = ViewerState 7 false 1 /\
  ~ index_valid (run [ModelLoaded; ClickSelect 7] SceneJsx.mount).
Proof.
  split; [reflexivity | ].
  intros [_ H]. cbv in H. discriminate H.
Qed.

(** ** The transitions *)

(** C2, as amended.  For every ViewerState of the data model (activeIndex in
    [0, catalogLength)) with isAssetReady true and generation in
    [-2^53, 2^53), selectNext sets activeIndex to (activeIndex + 1) mod
    catalogLength, isAssetReady to false and adds one to generation; with
    isAssetReady false it changes nothing.  The second conjunct gives the
    successor of every state with isAssetReady true in the source's own
    operators: [%], and the [+] of binary64. *)
Theorem selectNext_spec (s : SceneState) :
  (isAssetReady s = true -> index_valid s ->
   - JS.two53 <= generation s < JS.two53 ->
   selectNext s =
   ViewerState ((activeIndex s + 1) mod catalogLength) false
               (generation s + 1)) /\
  (isAssetReady s = true ->
   selectNext s =
   ViewerState (JS.rem (JS.add (activeIndex s) 1) catalogLength) false
               (JS.add (generation s) 1)) /\
  (isAssetReady s = false -> selectNext s = s).
Proof.
  unfold selectNext. split; [ | split].
  - intros Hr Hv Hg. apply isAssetReady_true in Hr.
    rewrite nextModel_valid by assumption.
    rewrite (rem_succ_mod catalogLength catalogLength_pos) by apply Hv.
    unfold generation in *. rewrite succ_exact by exact Hg.
    reflexivity.
  - intros Hr. apply isAssetReady_true in Hr.
    rewrite nextModel_ready by assumption. reflexivity.
  - intros Hr. apply isAssetReady_false in Hr.
    apply click_loading; [assumption | discriminate].
Qed.

Lemma selectNext_spec_witness :
  let s := ViewerState 4 true 7 in
  let t := ViewerState 2 false 3 in
  (isAssetReady s = true /\ index_valid s /\
   - JS.two53 <= generation s < JS.two53 /\
   selectNext s = ViewerState 0 false 8) /\
  (isAssetReady t = false /\ selectNext t = t).
Proof.
  cbv zeta.
  assert (Hv : index_valid (ViewerState 4 true 7)) by range_by_computation.
  assert (Hg : - JS.two53 <= generation (ViewerState 4 true 7) < JS.two53)
    by range_by_computation.
  split.
  - split; [reflexivity | split; [exact Hv | split; [exact Hg | ]]].
    exact (proj1 (selectNext_spec (ViewerState 4 true 7)) eq_refl Hv Hg).
  - split; [reflexivity | ].
    exact (proj2 (proj2 (selectNext_spec (ViewerState 2 false 3))) eq_refl).
Defined.

(** C2, as stated, fails: the key is a binary64 number.  At the state
    (0, true, 2^53), selectNext moves to index 1 and raises the loading flag,
    but [prev + 1] returns 2^53, so generation is not incremented. *)
Lemma selectNext_generation_counterexample :
  let s := ViewerState 0 true JS.two53 in
  isAssetReady s = true /\ index_valid s /\
  selectNext s = ViewerState 1 false JS.two53 /\
  generation (selectNext s) <> generation s + 1.
Proof.
  cbv zeta.
  split; [reflexivity | split; [range_by_computation | ]].
  split; [reflexivity | ].
  vm_compute. discriminate.
Qed.

(** C3, as amended.  selectIndex(i) changes nothing when isAssetReady is
    false or i is the activeIndex; otherwise, from a state with generation
    in [-2^53, 2^53), it sets activeIndex to i, isAssetReady to false and
    adds one to generation.  The last conjunct gives the successor of every
    state with the [+] of binary64. *)
Theorem selectIndex_spec (i : Z) (s : SceneState) :
  (isAssetReady s = false \/ i = activeIndex s -> selectIndex i s = s) /\
  (isAssetReady s = true -> i <> activeIndex s ->
   - JS.two53 <= generation s < JS.two53 ->
   selectIndex i s = ViewerState i false (generation s + 1)) /\
  (isAssetReady s = true -> i <> activeIndex s ->
   selectIndex i s = ViewerState i false (JS.add (generation s) 1)).
Proof.
  unfold selectIndex. split; [ | split].
  - intros [Hr | ->].
    + apply isAssetReady_false in Hr.
      apply click_loading; [assumption | discriminate].
    + apply selectModel_same.
  - intros Hr Hne Hg. apply isAssetReady_true in Hr.
    rewrite selectModel_ready by assumption.
    unfold generation in *. rewrite succ_exact by exact Hg. reflexivity.
  - intros Hr Hne. apply isAssetReady_true in Hr.
    rewrite selectModel_ready by assumption. reflexivity.
Qed.

Lemma selectIndex_spec_witness :
  let s := ViewerState 1 true 5 in
  let t := ViewerState 1 false 5 in
  (selectIndex 3 t = t /\ selectIndex 1 s = s) /\
  (isAssetReady s = true /\ 3 <> activeIndex s /\
   - JS.two53 <= generation s < JS.two53 /\
   selectIndex 3 s = ViewerState 3 false 6).
Proof.
  cbv zeta.
  assert (Hne : 3 <> activeIndex (ViewerState 1 true 5)) by discriminate.
  assert (Hg : - JS.two53 <= generation (ViewerState 1 true 5) < JS.two53)
    by range_by_computation.
  split.
  - split.
    + exact (proj1 (selectIndex_spec 3 (ViewerState 1 false 5))
               (or_introl eq_refl)).
    + exact (proj1 (selectIndex_spec 1 (ViewerState 1 true 5))
               (or_intror eq_refl)).
  - split; [reflexivity | split; [exact Hne | split; [exact Hg | ]]].
    exact (proj1 (proj2 (selectIndex_spec 3 (ViewerState 1 true 5)))
             eq_refl Hne Hg).
Defined.

(** C3, as stated, fails: the key is a binary64 number.  At the state
    (1, true, 2^53), selectIndex(3) is accepted and sets the index to 3, but
    [prev + 1] returns 2^53, so generation is not incremented. *)
Lemma selectIndex_generation_counterexample :
  let s := ViewerState 1 true JS.two53 in
  isAssetReady s = true /\ 3 <> activeIndex s /\
  selectIndex 3 s = ViewerState 3 false JS.two53 /\
  selectIndex 3 s <> ViewerState 3 false (generation s + 1).
Proof.
  cbv zeta.
  split; [reflexivity | split; [discriminate | ]].
  split; [reflexivity | ].
  vm_compute. discriminate.
Qed.

(** C4.  With isAssetReady false, selectNext, selectPrevious and
    selectIndex(i), for any i, leave the whole state unchanged. *)
Theorem loading_rejects_transitions (i : Z) (s : SceneState) :
  isAssetReady s = false ->
  selectNext s = s /\ selectPrevious s = s /\ selectIndex i s = s.
Proof.
  intros Hr. apply isAssetReady_false in Hr.
  unfold selectNext, selectPrevious, selectIndex.
  repeat split; apply click_loading; (assumption || discriminate).
Qed.

Lemma loading_rejects_transitions_witness :
  let s := ViewerState 2 false 9 in
  isAssetReady s = false /\
  selectNext s = s /\ selectPrevious s = s /\ selectIndex 4 s = s.
Proof.
  cbv zeta. split; [reflexivity | ].
  exact (loading_rejects_transitions 4 (ViewerState 2 false 9) eq_refl).
Defined.

(** ** The generation counter *)

Lemma accepted_true (e : Event) (s : SceneState) :
  accepted e s = true -> key (SceneJsx.step e s) = JS.add (key s) 1.
Proof.
  destruct e as [ | | index | ]; cbn [accepted]; intros H.
  - apply isAssetReady_true in H. rewrite nextModel_ready by assumption.
    reflexivity.
  - apply isAssetReady_true in H. rewrite previousModel_ready by assumption.
    reflexivity.
  - apply andb_true_iff in H. destruct H as [Hr Hne].
    apply isAssetReady_true in Hr. apply negb_true_iff, Z.eqb_neq in Hne.
    rewrite selectModel_ready by assumption. reflexivity.
  - discriminate H.
Qed.

Lemma accepted_true_exact (e : Event) (s : SceneState) :
  accepted e s = true -> - JS.two53 <= key s < JS.two53 ->
  key (SceneJsx.step e s) = key s + 1.
Proof.
  intros Ha Hk. rewrite accepted_true by assumption.
  apply succ_exact. exact Hk.
Qed.

Lemma accepted_false (e : Event) (s : SceneState) :
  accepted e s = false -> e <> ModelLoaded -> SceneJsx.step e s = s.
Proof.
  destruct e as [ | | index | ]; cbn [accepted]; intros H Hne.
  - apply isAssetReady_false in H. apply click_loading; assumption.
  - apply isAssetReady_false in H. apply click_loading; assumption.
  - apply andb_false_iff in H. destruct H as [Hr | Heq].
    + apply isAssetReady_false in Hr. apply click_loading; assumption.
    + apply negb_false_iff, Z.eqb_eq in Heq. unfold activeIndex in Heq.
      rewrite Heq. apply selectModel_same.
  - contradiction.
Qed.






(** ** Round trips *)

(** C6.  From a state with a valid activeIndex and isAssetReady true,
    selectNext, notifyAssetLoaded, selectPrevious bring activeIndex back;
    selectPrevious yields (activeIndex - 1 + catalogLength) mod
    catalogLength, which at activeIndex 0 is catalogLength - 1. *)
Theorem next_then_previous (s : SceneState) :
  index_valid s -> isAssetReady s = true ->
  activeIndex (selectPrevious (notifyAssetLoaded (selectNext s))) =
  activeIndex s /\
  activeIndex (selectPrevious s) =
  (activeIndex s - 1 + catalogLength) mod catalogLength /\
  (activeIndex s = 0 -> activeIndex (selectPrevious s) = catalogLength - 1).
Proof.
  intros Hv Hr. apply isAssetReady_true in Hr.
  unfold selectPrevious, notifyAssetLoaded, selectNext, activeIndex.
  repeat split.
  - rewrite (nextModel_valid s) by assumption.
    rewrite handleModelLoad_eq.
    rewrite previousModel_valid;
      [ | reflexivity
        | apply (rem_succ_range catalogLength catalogLength_pos); exact Hv].
    cbn [currentModelIndex].
    apply (rem_pred_succ catalogLength catalogLength_pos). exact Hv.
  - rewrite previousModel_valid by assumption. cbn [currentModelIndex].
    apply (rem_pred_mod catalogLength catalogLength_pos). apply Hv.
  - intros H0. rewrite previousModel_valid by assumption.
    cbn [currentModelIndex]. rewrite H0.
    apply (rem_pred_zero catalogLength catalogLength_pos).
Qed.

Lemma next_then_previous_witness :
  let s := ViewerState 0 true 2 in
  index_valid s /\ isAssetReady s = true /\
  activeIndex (selectPrevious (notifyAssetLoaded (selectNext s))) = 0 /\
  activeIndex (selectPrevious s) = 4.
Proof.
  cbv zeta.
  assert (Hv : index_valid (ViewerState 0 true 2)) by range_by_computation.
  split; [exact Hv | split; [reflexivity | ]].
  split.
  - exact (proj1 (next_then_previous (ViewerState 0 true 2) Hv eq_refl)).
  - exact (proj2 (proj2 (next_then_previous (ViewerState 0 true 2) Hv eq_refl))
             eq_refl).
Defined.

(** C7, as amended.  For i in [0, catalogLength) and every state in which
    isAssetReady is true or activeIndex is already i, selectIndex(i) followed
    by notifyAssetLoaded yields isAssetReady true and activeIndex i. *)
Theorem selectIndex_then_loaded (i : Z) (s : SceneState) :
  in_range i ->
  isAssetReady s = true \/ activeIndex s = i ->
  isAssetReady (notifyAssetLoaded (selectIndex i s)) = true /\
  activeIndex (notifyAssetLoaded (selectIndex i s)) = i.
Proof.
  intros _ H. split; [reflexivity | ].
  unfold notifyAssetLoaded, selectIndex, activeIndex in *.
  rewrite handleModelLoad_eq. cbn [currentModelIndex].
  destruct (Z.eq_dec i (currentModelIndex s)) as [-> | Hne].
  - rewrite selectModel_same. reflexivity.
  - destruct H as [Hr | He]; [ | congruence].
    apply isAssetReady_true in Hr.
    rewrite selectModel_ready by assumption. reflexivity.
Qed.

Lemma selectIndex_then_loaded_witness :
  let s := ViewerState 0 true 0 in
  in_range 3 /\ isAssetReady s = true /\
  isAssetReady (notifyAssetLoaded (selectIndex 3 s)) = true /\
  activeIndex (notifyAssetLoaded (selectIndex 3 s)) = 3.
Proof.
  cbv zeta.
  assert (Hi : in_range 3) by range_by_computation.
  split; [exact Hi | split; [reflexivity | ]].
  exact (selectIndex_then_loaded 3 (ViewerState 0 true 0) Hi
           (or_introl eq_refl)).
Defined.

(** C7, as stated, fails: while a load is in flight selectIndex is rejected.
    At the mount state (0, false, 0), selectIndex(3) changes nothing, and
    after notifyAssetLoaded the activeIndex is still 0. *)
Lemma selectIndex_then_loaded_counterexample :
  in_range 3 /\
  notifyAssetLoaded (selectIndex 3 SceneJsx.mount) = ViewerState 0 true 0 /\
  activeIndex (notifyAssetLoaded (selectIndex 3 SceneJsx.mount)) <> 3.
Proof.
  split; [range_by_computation | split; [reflexivity | discriminate]].
Qed.

(** C8.  notifyAssetLoaded sets isAssetReady to true and leaves activeIndex
    and generation unchanged; calling it twice is the same as calling it
    once. *)
Theorem notifyAssetLoaded_spec (s : SceneState) :
  isAssetReady (notifyAssetLoaded s) = true /\
  activeIndex (notifyAssetLoaded s) = activeIndex s /\
  generation (notifyAssetLoaded s) = generation s /\
  notifyAssetLoaded (notifyAssetLoaded s) = notifyAssetLoaded s.
Proof. repeat split. Qed.

(** ** The scenario of the specification *)

(** C9.  On the 5-entry catalog, from the mount state (0, false, 0), the
    sequence notifyAssetLoaded, selectNext, notifyAssetLoaded,
    selectIndex(4), selectPrevious, notifyAssetLoaded, selectPrevious passes
    through (0,true,0), (1,false,1), (1,true,1), (4,false,2), (4,false,2),
    (4,true,2) and ends at (3,false,3). *)
Theorem scenario_trace :
  List.length SceneJsx.models = 5%nat /\
  SceneJsx.mount = ViewerState 0 false 0 /\
  trace [ModelLoaded; ClickRight; ModelLoaded; ClickSelect 4; ClickLeft;
         ModelLoaded; ClickLeft] SceneJsx.mount =
  [ViewerState 0 true 0; ViewerState 1 false 1; ViewerState 1 true 1;
   ViewerState 4 false 2; ViewerState 4 false 2; ViewerState 4 true 2;
   ViewerState 3 false 3] /\
  run [ModelLoaded; ClickRight; ModelLoaded; ClickSelect 4; ClickLeft;
       ModelLoaded; ClickLeft] SceneJsx.mount = ViewerState 3 false 3.
Proof. repeat split. Qed.

(** ** The two copies of the component *)

(** C10.  [src/src/Scene.jsx] and [src/unnamed/part_000] have the same
    catalog and the same initial state, and each handler of the one computes,
    for every render it closes over, every argument and every pending state,
    the same successor state as the handler of that name in the other. *)
Theorem part_000_same_controller :
  SceneJsx.models = Part000.models /\
  SceneJsx.mount = Part000.mount /\
  (forall render s,
     SceneJsx.nextModel render s = Part000.nextModel render s) /\
  (forall render s,
     SceneJsx.previousModel render s = Part000.previousModel render s) /\
  (forall render index s,
     SceneJsx.selectModel render index s =
     Part000.selectModel render index s) /\
  (forall s, SceneJsx.handleModelLoad s = Part000.handleModelLoad s) /\
  (forall e s, SceneJsx.step e s = Part000.step e s).
Proof.
  split; [reflexivity | split; [reflexivity | ]].
  repeat split; intros; reflexivity.
Qed.

(** ** More on the handlers *)

Lemma accepted_loading (e : Event) (s : SceneState) :
  accepted e s = true -> isLoading (SceneJsx.step e s) = true.
Proof.
  destruct e as [ | | index | ]; cbn [accepted]; intros H.
  - apply isAssetReady_true in H. rewrite nextModel_ready by assumption.
    reflexivity.
  - apply isAssetReady_true in H. rewrite previousModel_ready by assumption.
    reflexivity.
  - apply andb_true_iff in H. destruct H as [Hr Hne].
    apply isAssetReady_true in Hr. apply negb_true_iff, Z.eqb_neq in Hne.
    rewrite selectModel_ready by assumption. reflexivity.
  - discriminate H.
Qed.

Lemma rem_succ_moves (i : Z) :
  JS.rem (JS.add i 1) catalogLength <> i.
Proof.
  change catalogLength with 5.
  pose proof (Z.rem_bound_abs (JS.add i 1) 5 ltac:(lia)) as Hb.
  unfold JS.rem. intros H.
  destruct (Z_lt_dec (Z.abs i) 5) as [Hs | Hs]; [ | rewrite H in Hb; lia].
  rewrite add_exact in H by (rewrite two53_val; lia).
  pose proof (Z.quot_rem' (i + 1) 5) as Hq. rewrite H in Hq. lia.
Qed.

Lemma rem_pred_moves (i : Z) :
  JS.rem (JS.add (JS.sub i 1) catalogLength) catalogLength <> i.
Proof.
  change catalogLength with 5.
  pose proof (Z.rem_bound_abs (JS.add (JS.sub i 1) 5) 5 ltac:(lia)) as Hb.
  unfold JS.rem. intros H.
  destruct (Z_lt_dec (Z.abs i) 5) as [Hs | Hs]; [ | rewrite H in Hb; lia].
  rewrite sub_exact in H by (rewrite two53_val; lia).
  rewrite add_exact in H by (rewrite two53_val; lia).
  pose proof (Z.quot_rem' (i - 1 + 5) 5) as Hq. rewrite H in Hq. lia.
Qed.

Lemma accepted_moves (e : Event) (s : SceneState) :
  accepted e s = true ->
  currentModelIndex (SceneJsx.step e s) <> currentModelIndex s.
Proof.
  destruct e as [ | | index | ]; cbn [accepted]; intros H.
  - apply isAssetReady_true in H. rewrite nextModel_ready by assumption.
    apply rem_succ_moves.
  - apply isAssetReady_true in H. rewrite previousModel_ready by assumption.
    apply rem_pred_moves.
  - apply andb_true_iff in H. destruct H as [Hr Hne].
    apply isAssetReady_true in Hr. apply negb_true_iff, Z.eqb_neq in Hne.
    rewrite selectModel_ready by assumption. exact Hne.
  - discriminate H.
Qed.

Lemma not_accepted_keeps (e : Event) (s : SceneState) :
  accepted e s = false ->
  currentModelIndex (SceneJsx.step e s) = currentModelIndex s /\
  key (SceneJsx.step e s) = key s.
Proof.
  intros H. destruct e;
    try (rewrite accepted_false by (assumption || discriminate);
         split; reflexivity).
  rewrite handleModelLoad_eq. split; reflexivity.
Qed.

(** X1.  From a state with a valid index that is not loading, previousModel,
    the load of the model, then nextModel bring [currentModelIndex] back to
    where it was. *)
Theorem previous_then_next (s : SceneState) :
  index_valid s -> isLoading s = false ->
  currentModelIndex
    (SceneJsx.step ClickRight
       (SceneJsx.step ModelLoaded (SceneJsx.step ClickLeft s))) =
  currentModelIndex s.
Proof.
  intros Hv Hl.
  rewrite (previousModel_valid s) by assumption.
  rewrite handleModelLoad_eq.
  rewrite nextModel_valid;
    [ | reflexivity
      | apply (rem_pred_range catalogLength catalogLength_pos); exact Hv].
  cbn [currentModelIndex].
  unfold index_valid, in_range, activeIndex in Hv.
  set (i := currentModelIndex s) in *. set (n := catalogLength) in *.
  assert (Hn : 0 < n) by exact catalogLength_pos.
  destruct (Z.eq_dec i 0) as [-> | Hi].
  - rewrite (rem_pred_zero n Hn).
    replace (n - 1 + 1) with n by lia.
    unfold JS.rem. apply Z.rem_same. lia.
  - assert (Hp : JS.rem (i - 1 + n) n = i - 1).
    { rewrite (rem_pred_mod n Hn) by lia.
      replace (i - 1 + n) with (i - 1 + 1 * n) by lia.
      rewrite Z.mod_add by lia. apply Z.mod_small. lia. }
    rewrite Hp. replace (i - 1 + 1) with i by lia.
    unfold JS.rem. apply Z.rem_small. lia.
Qed.

Lemma previous_then_next_witness :
  let s := {| currentModelIndex := 0; isLoading := false; key := 6 |} in
  index_valid s /\ isLoading s = false /\
  currentModelIndex
    (SceneJsx.step ClickRight
       (SceneJsx.step ModelLoaded (SceneJsx.step ClickLeft s))) = 0.
Proof.
  cbv zeta.
  assert (Hv : index_valid
                 {| currentModelIndex := 0; isLoading := false; key := 6 |})
    by range_by_computation.
  split; [exact Hv | split; [reflexivity | ]].
  exact (previous_then_next _ Hv eq_refl).
Defined.

Lemma load_after_next (t : SceneState) :
  isLoading t = false -> index_valid t ->
  - JS.two53 <= key t < JS.two53 ->
  SceneJsx.step ModelLoaded (SceneJsx.step ClickRight t) =
  {| currentModelIndex := JS.rem (currentModelIndex t + 1) catalogLength;
     isLoading := false;
     key := key t + 1 |}.
Proof.
  intros H Hv Hk. rewrite nextModel_valid by assumption.
  rewrite succ_exact by exact Hk. reflexivity.
Qed.

(** X2.  From a valid state that is not loading, k times nextModel, each
    followed by the load of the model, move the index k places round the
    catalog and, as long as the key stays within [-2^53, 2^53], add k to the
    key; models.length such steps are a full turn. *)
Theorem next_cycle (k : nat) (s : SceneState) :
  index_valid s -> isLoading s = false ->
  - JS.two53 <= key s -> key s + Z.of_nat k <= JS.two53 ->
  let s' :=
    Nat.iter k (fun t => SceneJsx.step ModelLoaded (SceneJsx.step ClickRight t))
             s in
  currentModelIndex s' =
  (currentModelIndex s + Z.of_nat k) mod SceneJsx.models_length /\
  isLoading s' = false /\
  key s' = key s + Z.of_nat k /\
  (Z.of_nat k = SceneJsx.models_length ->
   currentModelIndex s' = currentModelIndex s).
Proof.
  intros Hv Hl Hlo Hhi. cbv zeta.
  unfold index_valid, in_range, activeIndex in Hv.
  fold catalogLength.
  assert (Hn : 0 < catalogLength) by exact catalogLength_pos.
  assert (H3 :
    currentModelIndex
      (Nat.iter k (fun t => SceneJsx.step ModelLoaded
                              (SceneJsx.step ClickRight t)) s) =
    (currentModelIndex s + Z.of_nat k) mod catalogLength /\
    isLoading
      (Nat.iter k (fun t => SceneJsx.step ModelLoaded
                              (SceneJsx.step ClickRight t)) s) = false /\
    key
      (Nat.iter k (fun t => SceneJsx.step ModelLoaded
                              (SceneJsx.step ClickRight t)) s) =
    key s + Z.of_nat k).
  { induction k as [ | k IH].
    - cbn [Nat.iter nat_rect]. rewrite Z.add_0_r, Z.mod_small by lia.
      repeat split; (assumption || lia).
    - rewrite Nat.iter_succ. cbv beta.
      destruct IH as [Hi [Hl' Hk]]; [lia | ].
      pose proof (Z.mod_pos_bound (currentModelIndex s + Z.of_nat k)
                    catalogLength Hn) as Hb.
      rewrite load_after_next;
        [ | assumption
          | unfold index_valid, in_range, activeIndex; rewrite Hi; exact Hb
          | rewrite Hk; lia ].
      cbn [currentModelIndex isLoading key].
      rewrite Hi, Hk.
      rewrite (rem_succ_mod catalogLength Hn) by lia.
      rewrite Z.add_mod_idemp_l by lia.
      repeat split; [f_equal; lia | lia]. }
  destruct H3 as [Hi [Hl' Hk]].
  repeat split; try assumption.
  intros Hfull. rewrite Hi, Hfull.
  replace (currentModelIndex s + catalogLength)
    with (currentModelIndex s + 1 * catalogLength) by lia.
  rewrite Z.mod_add by lia. apply Z.mod_small. exact Hv.
Qed.

Lemma next_cycle_witness :
  let s := {| currentModelIndex := 3; isLoading := false; key := 1 |} in
  index_valid s /\ isLoading s = false /\
  currentModelIndex
    (Nat.iter 5 (fun t => SceneJsx.step ModelLoaded
                            (SceneJsx.step ClickRight t)) s) = 3.
Proof.
  cbv zeta.
  assert (Hv : index_valid
                 {| currentModelIndex := 3; isLoading := false; key := 1 |})
    by range_by_computation.
  split; [exact Hv | split; [reflexivity | ]].
  refine (proj2 (proj2 (proj2 (next_cycle 5 _ Hv eq_refl _ _))) eq_refl);
    cbv; intros H; discriminate H.
Defined.

(** X3.  For every state and every event, the shown model changes exactly
    when the event is an accepted transition, and then the loading flag is
    raised; from a state whose key is in [-2^53, 2^53) the key changes
    exactly when the shown model does: one key per change of model. *)
Theorem index_changes_iff_key_changes (e : Event) (s : SceneState) :
  (currentModelIndex (SceneJsx.step e s) <> currentModelIndex s <->
   accepted e s = true) /\
  (- JS.two53 <= key s < JS.two53 ->
   (key (SceneJsx.step e s) <> key s <->
    currentModelIndex (SceneJsx.step e s) <> currentModelIndex s)) /\
  (currentModelIndex (SceneJsx.step e s) <> currentModelIndex s ->
   isLoading (SceneJsx.step e s) = true).
Proof.
  destruct (accepted e s) eqn:Ha.
  - pose proof (accepted_moves e s Ha) as Hm.
    pose proof (accepted_loading e s Ha) as Hl.
    split; [ | split].
    + split; intros; assumption || reflexivity.
    + intros Hk. pose proof (accepted_true_exact e s Ha Hk) as Hkey.
      split; intros; [assumption | lia].
    + intros _. exact Hl.
  - destruct (not_accepted_keeps e s Ha) as [Hi Hk].
    split; [ | split].
    + split; intros; congruence.
    + intros _. split; intros; congruence.
    + intros; congruence.
Qed.

Lemma index_changes_iff_key_changes_witness :
  let s := {| currentModelIndex := 2; isLoading := false; key := 5 |} in
  - JS.two53 <= key s < JS.two53 /\
  (accepted (ClickSelect 0) s = true /\
   currentModelIndex (SceneJsx.step (ClickSelect 0) s) <>
   currentModelIndex s /\
   key (SceneJsx.step (ClickSelect 0) s) <> key s).
Proof.
  cbv zeta.
  assert (Hk : - JS.two53 <=
               key {| currentModelIndex := 2; isLoading := false; key := 5 |}
               < JS.two53) by range_by_computation.
  split; [exact Hk | split; [reflexivity | ]].
  assert (Hm : currentModelIndex
                 (SceneJsx.step (ClickSelect 0)
                    {| currentModelIndex := 2; isLoading := false;
                       key := 5 |}) <>
               currentModelIndex
                 {| currentModelIndex := 2; isLoading := false; key := 5 |}).
  { exact (proj2 (proj1 (index_changes_iff_key_changes (ClickSelect 0)
                           {| currentModelIndex := 2; isLoading := false;
                              key := 5 |})) eq_refl). }
  split; [exact Hm | ].
  exact (proj2 (proj1 (proj2 (index_changes_iff_key_changes (ClickSelect 0)
                                {| currentModelIndex := 2; isLoading := false;
                                   key := 5 |})) Hk) Hm).
Defined.

Lemma run_clicks_loading (clicks : list Event) :
  Forall (fun e => e <> ModelLoaded) clicks ->
  forall s, isLoading s = true -> run clicks s = s.
Proof.
  induction 1 as [ | e clicks He _ IH]; intros s Hl.
  - reflexivity.
  - cbn [run fold_left]. rewrite click_loading by assumption.
    apply IH. exact Hl.
Qed.

(** X4.  Between two loads at most one click takes effect: a run of clicks
    with no load in between either changes nothing or ends in the state the
    first accepted click produced, so the key is the old one or its binary64
    successor, and from a key in [-2^53, 2^53] it grows by at most one. *)
Theorem clicks_between_loads (clicks : list Event) (s : SceneState) :
  Forall (fun e => e <> ModelLoaded) clicks ->
  (run clicks s = s \/
   exists e, In e clicks /\ accepted e s = true /\
             run clicks s = SceneJsx.step e s) /\
  (key (run clicks s) = key s \/ key (run clicks s) = JS.add (key s) 1) /\
  (- JS.two53 <= key s <= JS.two53 -> key (run clicks s) <= key s + 1).
Proof.
  intros H.
  assert (Hmain : run clicks s = s \/
                  exists e, In e clicks /\ accepted e s = true /\
                            run clicks s = SceneJsx.step e s).
  { induction H as [ | e clicks He Hrest IH].
    - left. reflexivity.
    - cbn [run fold_left]. destruct (accepted e s) eqn:Ha.
      + right. exists e. split; [left; reflexivity | split; [exact Ha | ]].
        apply (run_clicks_loading clicks Hrest).
        apply accepted_loading. exact Ha.
      + rewrite accepted_false by assumption.
        destruct IH as [Hs | [e' [Hin [Ha' Hr]]]].
        * left. exact Hs.
        * right. exists e'. split; [right; exact Hin | split; assumption]. }
  split; [exact Hmain | ].
  destruct Hmain as [-> | [e [_ [Ha ->]]]].
  - split; [left; reflexivity | lia].
  - rewrite accepted_true by assumption.
    split; [right; reflexivity | ].
    intros Hk. destruct (Z.eq_dec (key s) JS.two53) as [-> | Hne].
    + rewrite succ_at_two53. lia.
    + rewrite succ_exact by lia. lia.
Qed.

Lemma clicks_between_loads_witness :
  let clicks := [ClickSelect 2; ClickRight; ClickLeft; ClickSelect 4] in
  let s := {| currentModelIndex := 2; isLoading := false; key := 0 |} in
  Forall (fun e => e <> ModelLoaded) clicks /\
  - JS.two53 <= key s <= JS.two53 /\
  key (run clicks s) <= key s + 1.
Proof.
  cbv zeta.
  assert (H : Forall (fun e => e <> ModelLoaded)
                [ClickSelect 2; ClickRight; ClickLeft; ClickSelect 4]).
  { repeat (apply Forall_cons; [discriminate | ]). apply Forall_nil. }
  assert (Hk : - JS.two53 <=
               key {| currentModelIndex := 2; isLoading := false; key := 0 |}
               <= JS.two53).
  { cbv; split; intros E; discriminate E. }
  split; [exact H | split; [exact Hk | ]].
  exact (proj2 (proj2 (clicks_between_loads _
                  {| currentModelIndex := 2; isLoading := false; key := 0 |}
                  H)) Hk).
Defined.

Lemma rem_neg_bound (a n : Z) :
  a < 0 -> 0 < n -> - n < JS.rem a n <= 0.
Proof.
  intros Ha Hn. unfold JS.rem.
  replace a with (- (- a)) by lia.
  rewrite Z.rem_opp_l by lia.
  pose proof (Z.rem_bound_pos (- a) n) as Hb. lia.
Qed.

(** X5.  The wrap-around is the truncated remainder.  From an index that is
    too large, or just below zero, nextModel and previousModel land back on
    an index of the catalog; from an index further below zero they land in
    (-models.length, 0], on no index of the catalog unless on 0. *)
Theorem wrap_outside_catalog (s : SceneState) :
  isLoading s = false ->
  (-1 <= currentModelIndex s -> index_valid (SceneJsx.step ClickRight s)) /\
  (currentModelIndex s < -1 ->
   - SceneJsx.models_length <
     currentModelIndex (SceneJsx.step ClickRight s) <= 0) /\
  (1 - SceneJsx.models_length <= currentModelIndex s ->
   index_valid (SceneJsx.step ClickLeft s)) /\
  (currentModelIndex s < 1 - SceneJsx.models_length ->
   - SceneJsx.models_length <
     currentModelIndex (SceneJsx.step ClickLeft s) <= 0).
Proof.
  intros Hl. fold catalogLength.
  rewrite nextModel_ready, previousModel_ready by assumption.
  unfold index_valid, in_range, activeIndex. cbn [currentModelIndex].
  unfold JS.add, JS.sub. change catalogLength with 5.
  assert (H53 : - JS.two53 <= -6 /\ 5 <= JS.two53)
    by (rewrite two53_val; lia).
  split; [ | split; [ | split]]; intros H.
  - pose proof (round_ge_const 0 (currentModelIndex s + 1)) as Hr.
    apply Z.rem_bound_pos; lia.
  - pose proof (round_le_const (-1) (currentModelIndex s + 1)) as Hr.
    apply (rem_neg_bound _ 5); lia.
  - pose proof (round_ge_const (-5) (currentModelIndex s - 1)) as Hp.
    pose proof (round_ge_const 0 (JS.round (currentModelIndex s - 1) + 5))
      as Hr.
    apply Z.rem_bound_pos; lia.
  - pose proof (round_le_const (-6) (currentModelIndex s - 1)) as Hp.
    pose proof (round_le_const (-1) (JS.round (currentModelIndex s - 1) + 5))
      as Hr.
    apply (rem_neg_bound _ 5); lia.
Qed.

Lemma wrap_outside_catalog_witness :
  let high := {| currentModelIndex := 7; isLoading := false; key := 1 |} in
  let low := {| currentModelIndex := -3; isLoading := false; key := 1 |} in
  (isLoading high = false /\ index_valid (SceneJsx.step ClickRight high)) /\
  (isLoading low = false /\
   - SceneJsx.models_length <
     currentModelIndex (SceneJsx.step ClickRight low) <= 0 /\
   currentModelIndex (SceneJsx.step ClickRight low) = -2).
Proof.
  cbv zeta. split.
  - split; [reflexivity | ].
    refine (proj1 (wrap_outside_catalog
                     {| currentModelIndex := 7; isLoading := false; key := 1 |}
                     eq_refl) _).
    cbn. lia.
  - split; [reflexivity | split; [ | reflexivity]].
    refine (proj1 (proj2 (wrap_outside_catalog
                     {| currentModelIndex := -3; isLoading := false;
                        key := 1 |} eq_refl)) _).
    cbn. lia.
Defined.

(** X6.  The guard reads the render's [isLoading], the updaters read the
    pending state.  A closure of a render that is not loading, run twice
    before the next render, therefore acts twice: on a pending state with a
    valid index and a key such that key + 2 stays within [-2^53, 2^53],
    nextModel moves two places and adds two to the key, and selectModel adds
    two to the key.  Dispatched through a fresh render each time, the second
    click is dropped. *)
Theorem same_closure_twice (render s : SceneState) (index : Z) :
  isLoading render = false -> index_valid s ->
  - JS.two53 <= key s -> key s + 2 <= JS.two53 ->
  SceneJsx.nextModel render (SceneJsx.nextModel render s) =
  {| currentModelIndex :=
       (currentModelIndex s + 2) mod SceneJsx.models_length;
     isLoading := true;
     key := key s + 2 |} /\
  (index <> currentModelIndex render ->
   SceneJsx.selectModel render index (SceneJsx.selectModel render index s) =
   {| currentModelIndex := index; isLoading := true; key := key s + 2 |}) /\
  SceneJsx.step ClickRight (SceneJsx.step ClickRight s) =
  SceneJsx.step ClickRight s.
Proof.
  intros Hl Hv Hlo Hhi.
  assert (Hk2 : JS.add (JS.add (key s) 1) 1 = key s + 2).
  { rewrite (succ_exact (key s)) by lia.
    rewrite succ_exact by lia. lia. }
  split; [ | split].
  - unfold SceneJsx.nextModel. rewrite Hl.
    cbn [negb].
    unfold React.seq, React.setIsLoading, React.setCurrentModelIndex,
      React.setKey, React.resolve.
    cbn [currentModelIndex isLoading key].
    fold catalogLength. rewrite Hk2.
    assert (Hn : 0 < catalogLength) by exact catalogLength_pos.
    rewrite (succ_index_exact (currentModelIndex s)) by exact Hv.
    rewrite succ_index_exact
      by (apply (rem_succ_range catalogLength Hn); exact Hv).
    unfold index_valid, in_range, activeIndex in Hv.
    rewrite (rem_succ_mod catalogLength Hn (currentModelIndex s)) by lia.
    pose proof (Z.mod_pos_bound (currentModelIndex s + 1) catalogLength Hn)
      as Hb.
    rewrite (rem_succ_mod catalogLength Hn) by lia.
    rewrite Z.add_mod_idemp_l by lia.
    f_equal. f_equal. lia.
  - intros Hne. unfold SceneJsx.selectModel, JS.strict_neq. rewrite Hl.
    destruct (Z.eqb_spec index (currentModelIndex render)) as [He | _];
      [contradiction | ].
    cbn [negb andb].
    unfold React.seq, React.setIsLoading, React.setCurrentModelIndex,
      React.setKey, React.resolve.
    cbn [currentModelIndex isLoading key].
    rewrite Hk2. reflexivity.
  - destruct (isLoading s) eqn:Hs.
    + rewrite (click_loading ClickRight s) by (assumption || discriminate).
      apply click_loading; [assumption | discriminate].
    + apply click_loading; [ | discriminate].
      rewrite nextModel_ready by assumption. reflexivity.
Qed.

Lemma same_closure_twice_witness :
  let r := {| currentModelIndex := 0; isLoading := false; key := 0 |} in
  isLoading r = false /\ index_valid r /\
  SceneJsx.nextModel r (SceneJsx.nextModel r r) =
  {| currentModelIndex := 2; isLoading := true; key := 2 |}.
Proof.
  cbv zeta.
  assert (Hv : index_valid
                 {| currentModelIndex := 0; isLoading := false; key := 0 |})
    by range_by_computation.
  split; [reflexivity | split; [exact Hv | ]].
  refine (proj1 (same_closure_twice
                   {| currentModelIndex := 0; isLoading := false; key := 0 |}
                   {| currentModelIndex := 0; isLoading := false; key := 0 |}
                   3 eq_refl Hv _ _));
    cbv; intros H; discriminate H.
Defined.

(** ** The rendered tree of [src/src/Scene.jsx] *)

Lemma at_index_in_range {A : Type} (arr : list A) (i : Z) :
  (exists a, JSLib.at_index arr i = Some a) <->
  0 <= i < Z.of_nat (List.length arr).
Proof.
  unfold JSLib.at_index. destruct (Z.ltb_spec i 0) as [Hneg | Hpos].
  - split; [intros [a Ha]; discriminate Ha | lia].
  - split.
    + intros [a Ha].
      assert (Hlt : (Z.to_nat i < List.length arr)%nat).
      { apply nth_error_Some. rewrite Ha. discriminate. }
      lia.
    + intros Hi.
      destruct (nth_error arr (Z.to_nat i)) as [a | ] eqn:Ha.
      * exists a. reflexivity.
      * apply nth_error_None in Ha. lia.
Qed.

Lemma at_index_models (s : SceneState) :
  index_valid s <->
  exists m, JSLib.at_index SceneJsx.models (currentModelIndex s) = Some m.
Proof.
  rewrite at_index_in_range. reflexivity.
Qed.

Lemma Scene_ok_valid (s : SceneState) (v : SceneView) :
  SceneJsxView.Scene s = JSLib.Ok v -> index_valid s.
Proof.
  intros H. apply at_index_models.
  unfold SceneJsxView.Scene in H.
  destruct (JSLib.at_index SceneJsx.models (currentModelIndex s)) as [m | ].
  - exists m. reflexivity.
  - discriminate H.
Qed.

Lemma valid_index_cases (s : SceneState) :
  index_valid s ->
  exists l k, In (currentModelIndex s) [0; 1; 2; 3; 4] /\
              s = {| currentModelIndex := currentModelIndex s;
                     isLoading := l; key := k |}.
Proof.
  intros H. exists (isLoading s), (key s). split.
  - unfold index_valid, in_range, activeIndex in H.
    change catalogLength with 5 in H. cbn [In]. lia.
  - destruct s; reflexivity.
Qed.

(** Replaces a state whose render succeeded by the ten shapes it can have
    (five indices, loading or not) and the view by its value. *)
Ltac enumerate_views s v H :=
  let Hv := fresh "Hv" in
  pose proof (Scene_ok_valid s v H) as Hv;
  destruct s as [?i ?l ?k];
  unfold index_valid, in_range, activeIndex in Hv;
  cbn [currentModelIndex] in Hv; change catalogLength with 5 in Hv;
  match type of Hv with
  | 0 <= ?i < 5 =>
      assert (i = 0 \/ i = 1 \/ i = 2 \/ i = 3 \/ i = 4) as
        [-> | [-> | [-> | [-> | ->]]]] by lia
  end;
  clear Hv;
  match type of H with
  | SceneJsxView.Scene {| isLoading := ?l |} = _ => destruct l
  end;
  vm_compute in H; injection H as <-.

Lemma Scene_valid_ok (s : SceneState) :
  index_valid s -> exists v, SceneJsxView.Scene s = JSLib.Ok v.
Proof.
  intros Hv. destruct (valid_index_cases s Hv) as [l [k [Hin Hs]]].
  rewrite Hs. cbn [In] in Hin.
  destruct Hin as [<- | [<- | [<- | [<- | [<- | []]]]]]; destruct l;
    eexists; vm_compute; reflexivity.
Qed.

Lemma Scene_invalid (s : SceneState) :
  ~ index_valid s -> SceneJsxView.Scene s = JSLib.TypeError.
Proof.
  intros Hn. destruct (SceneJsxView.Scene s) as [v | ] eqn:Hs.
  - elim Hn. exact (Scene_ok_valid s v Hs).
  - reflexivity.
Qed.

Lemma index_valid_dec (s : SceneState) : {index_valid s} + {~ index_valid s}.
Proof.
  unfold index_valid, in_range.
  destruct (Z_le_dec 0 (activeIndex s)) as [H0 | H0];
    destruct (Z_lt_dec (activeIndex s) catalogLength) as [H1 | H1];
    first [left; split; assumption | right; intros [? ?]; contradiction].
Qed.

(** X7.  The render of [Scene] throws, on [models[currentModelIndex].name],
    exactly when [currentModelIndex] is no index of [models]; otherwise it
    returns a tree. *)
Theorem Scene_throws_iff (s : SceneState) :
  (SceneJsxView.Scene s = JSLib.TypeError <-> ~ index_valid s) /\
  (index_valid s <-> exists v, SceneJsxView.Scene s = JSLib.Ok v).
Proof.
  split; split.
  - intros H Hv. destruct (Scene_valid_ok s Hv) as [v Hs]. congruence.
  - apply Scene_invalid.
  - apply Scene_valid_ok.
  - intros [v Hs]. exact (Scene_ok_valid s v Hs).
Qed.

Lemma Scene_throws_iff_witness :
  let s := {| currentModelIndex := 7; isLoading := true; key := 1 |} in
  ~ index_valid s /\ SceneJsxView.Scene s = JSLib.TypeError.
Proof.
  cbv zeta.
  assert (Hn : ~ index_valid
                 {| currentModelIndex := 7; isLoading := true; key := 1 |}).
  { intros [_ H]. cbv in H. discriminate H. }
  split; [exact Hn | ].
  exact (proj2 (proj1 (Scene_throws_iff
                         {| currentModelIndex := 7; isLoading := true;
                            key := 1 |})) Hn).
Defined.

(** X8.  In every tree [Scene] returns, the spinner is shown exactly while
    loading and each of the twelve buttons is disabled exactly then: while
    loading no click can be delivered, otherwise all twelve can. *)
Theorem controls_disabled_while_loading (s : SceneState) (v : SceneView) :
  SceneJsxView.Scene s = JSLib.Ok v ->
  spinner v = isLoading s /\
  Forall (fun b => disabled b = isLoading s) (UI.buttons v) /\
  List.length (UI.buttons v) = 12%nat /\
  List.length (UI.clickable v) = (if isLoading s then 0 else 12)%nat.
Proof.
  intros H. enumerate_views s v H;
    (split; [reflexivity | split; [ | split; reflexivity]]);
    repeat (apply Forall_cons; [reflexivity | ]); apply Forall_nil.
Qed.

Lemma controls_disabled_while_loading_witness :
  exists v,
    SceneJsxView.Scene SceneJsx.mount = JSLib.Ok v /\
    spinner v = true /\ UI.clickable v = [].
Proof.
  destruct (SceneJsxView.Scene SceneJsx.mount) as [v | ] eqn:Hs.
  - exists v. split; [reflexivity | ].
    pose proof (controls_disabled_while_loading SceneJsx.mount v Hs)
      as [Hsp [_ [_ Hc]]].
    split; [exact Hsp | ].
    destruct (UI.clickable v); [reflexivity | discriminate Hc].
  - vm_compute in Hs. discriminate Hs.
Defined.

(** X9.  A button that can be clicked always carries an event whose index,
    if any, is an index of the catalog, and its click is accepted by the
    handler unless the button is the highlighted one: the only click the
    page offers and the handlers drop is the one on the current model. *)
Theorem enabled_click_accepted (s : SceneState) (v : SceneView)
    (b : ButtonEl) :
  SceneJsxView.Scene s = JSLib.Ok v ->
  In b (UI.buttons v) -> disabled b = false ->
  arg_in_range (onClick b) /\
  accepted (onClick b) s = negb (UI.highlighted b).
Proof.
  intros H Hin Hd. enumerate_views s v H; vm_compute in Hin;
    repeat (destruct Hin as [<- | Hin]); try contradiction;
    try discriminate Hd;
    (split; [first [exact I | range_by_computation] | reflexivity]).
Qed.

Lemma enabled_click_accepted_witness :
  let s := {| currentModelIndex := 1; isLoading := false; key := 4 |} in
  match SceneJsxView.Scene s with
  | JSLib.Ok v =>
      match nth_error (UI.buttons v) 3 with
      | Some b =>
          In b (UI.buttons v) /\ disabled b = false /\
          arg_in_range (onClick b) /\
          accepted (onClick b) s = negb (UI.highlighted b)
      | None => False
      end
  | JSLib.TypeError => False
  end.
Proof.
  cbv zeta.
  destruct (SceneJsxView.Scene
              {| currentModelIndex := 1; isLoading := false; key := 4 |})
    as [v | ] eqn:Hs; [ | vm_compute in Hs; discriminate Hs].
  destruct (nth_error (UI.buttons v) 3) as [b | ] eqn:Hb.
  - assert (Hin : In b (UI.buttons v)) by (eapply nth_error_In; exact Hb).
    assert (Hd : disabled b = false).
    { vm_compute in Hs. injection Hs as <-. vm_compute in Hb.
      injection Hb as <-. reflexivity. }
    split; [exact Hin | split; [exact Hd | ]].
    exact (enabled_click_accepted _ v b Hs Hin Hd).
  - vm_compute in Hs. injection Hs as <-. vm_compute in Hb. discriminate Hb.
Defined.

(** X10.  In every tree [Scene] returns, the n-th dot and the n-th thumbnail
    select index n, and are highlighted exactly when n is
    [currentModelIndex]; the highlighted dot is labelled with the title and
    the highlighted thumbnail shows it; the two arrows are never
    highlighted. *)
Theorem highlight_marks_current (s : SceneState) (v : SceneView) :
  SceneJsxView.Scene s = JSLib.Ok v ->
  (forall (n : nat) (b : ButtonEl),
     nth_error (dots v) n = Some b \/ nth_error (thumbnails v) n = Some b ->
     onClick b = ClickSelect (Z.of_nat n) /\
     UI.highlighted b = (Z.of_nat n =? currentModelIndex s)) /\
  (forall b, In b (dots v) -> UI.highlighted b = true ->
             ariaLabel b = Some ("View " ++ title v)%string) /\
  (forall b, In b (thumbnails v) -> UI.highlighted b = true ->
             children b = Paragraph (title v)) /\
  UI.highlighted (leftButton v) = false /\
  UI.highlighted (rightButton v) = false.
Proof.
  intros H.
  enumerate_views s v H;
    (split; [ | split; [ | split; [ | split; reflexivity]]]).
  all: try (intros n b [Hn | Hn];
            destruct n as [ | [ | [ | [ | [ | [ | n]]]]]];
            vm_compute in Hn; try discriminate Hn;
            injection Hn as <-; split; reflexivity).
  all: intros b Hin Hh; vm_compute in Hin;
    repeat (destruct Hin as [<- | Hin]); try contradiction;
    first [reflexivity | vm_compute in Hh; discriminate Hh].
Qed.

Lemma highlight_marks_current_witness :
  let s := {| currentModelIndex := 2; isLoading := false; key := 0 |} in
  exists v,
    SceneJsxView.Scene s = JSLib.Ok v /\
    UI.highlighted (leftButton v) = false /\
    UI.highlighted (rightButton v) = false.
Proof.
  cbv zeta.
  destruct (SceneJsxView.Scene
              {| currentModelIndex := 2; isLoading := false; key := 0 |})
    as [v | ] eqn:Hs; [ | vm_compute in Hs; discriminate Hs].
  exists v. split; [reflexivity | ].
  exact (proj2 (proj2 (proj2 (highlight_marks_current _ v Hs)))).
Defined.

Lemma view_key_and_path (s : SceneState) (v : SceneView) :
  SceneJsxView.Scene s = JSLib.Ok v ->
  canvasKey v = key s /\
  onLoad (model v) = ModelLoaded /\
  JSLib.member (JSLib.at_index SceneJsx.models (currentModelIndex s)) path =
  JSLib.Ok (modelPath (model v)).
Proof.
  intros H. enumerate_views s v H; repeat split.
Qed.

Lemma path_injective (s t : SceneState) :
  index_valid s -> index_valid t ->
  JSLib.member (JSLib.at_index SceneJsx.models (currentModelIndex s)) path =
  JSLib.member (JSLib.at_index SceneJsx.models (currentModelIndex t)) path ->
  currentModelIndex s = currentModelIndex t.
Proof.
  intros Hs Ht.
  destruct (valid_index_cases s Hs) as [_ [_ [His _]]].
  destruct (valid_index_cases t Ht) as [_ [_ [Hit _]]].
  cbn [In] in His, Hit.
  destruct His as [<- | [<- | [<- | [<- | [<- | []]]]]];
    destruct Hit as [<- | [<- | [<- | [<- | [<- | []]]]]];
    intros H; first [reflexivity | vm_compute in H; discriminate H].
Qed.

(** X11.  The canvas gets a new key exactly when it is given another model:
    across any event from a state whose key is in [-2^53, 2^53), the key of
    [<Canvas>] differs from the one before if and only if the path handed to
    [<Model>] differs. *)
Theorem canvas_remounts_iff_model_changes (e : Event) (s : SceneState)
    (v v' : SceneView) :
  - JS.two53 <= key s < JS.two53 ->
  SceneJsxView.Scene s = JSLib.Ok v ->
  SceneJsxView.Scene (SceneJsx.step e s) = JSLib.Ok v' ->
  (canvasKey v' <> canvasKey v <->
   modelPath (model v') <> modelPath (model v)).
Proof.
  intros Hb H H'.
  destruct (view_key_and_path s v H) as [Hk [_ Hp]].
  destruct (view_key_and_path _ v' H') as [Hk' [_ Hp']].
  pose proof (Scene_ok_valid s v H) as Hv.
  pose proof (Scene_ok_valid _ v' H') as Hv'.
  rewrite Hk, Hk'.
  destruct (accepted e s) eqn:Ha.
  - pose proof (accepted_true_exact e s Ha Hb) as Hkey.
    pose proof (accepted_moves e s Ha) as Hmove.
    split; [ | lia].
    intros _ Heq. apply Hmove. apply path_injective; try assumption.
    rewrite Hp, Hp', Heq. reflexivity.
  - destruct (not_accepted_keeps e s Ha) as [Hi Hkey].
    split; [lia | ].
    intros Hne. elim Hne.
    rewrite Hi in Hp'. rewrite Hp in Hp'. congruence.
Qed.

Lemma canvas_remounts_iff_model_changes_witness :
  let s := {| currentModelIndex := 4; isLoading := false; key := 2 |} in
  - JS.two53 <= key s < JS.two53 /\
  match SceneJsxView.Scene s,
        SceneJsxView.Scene (SceneJsx.step ClickRight s) with
  | JSLib.Ok v, JSLib.Ok v' =>
      modelPath (model v') <> modelPath (model v) /\
      canvasKey v' <> canvasKey v
  | _, _ => False
  end.
Proof.
  cbv zeta.
  assert (Hb : - JS.two53 <=
               key {| currentModelIndex := 4; isLoading := false; key := 2 |}
               < JS.two53) by range_by_computation.
  split; [exact Hb | ].
  destruct (SceneJsxView.Scene
              {| currentModelIndex := 4; isLoading := false; key := 2 |})
    as [v | ] eqn:Hs; [ | vm_compute in Hs; discriminate Hs].
  destruct (SceneJsxView.Scene
              (SceneJsx.step ClickRight
                 {| currentModelIndex := 4; isLoading := false; key := 2 |}))
    as [v' | ] eqn:Hs'; [ | vm_compute in Hs'; discriminate Hs'].
  assert (Hp : modelPath (model v') <> modelPath (model v)).
  { vm_compute in Hs. injection Hs as <-.
    vm_compute in Hs'. injection Hs' as <-. discriminate. }
  split; [exact Hp | ].
  exact (proj2 (canvas_remounts_iff_model_changes ClickRight _ v v' Hb Hs Hs')
           Hp).
Defined.

Lemma clickable_in_range (s : SceneState) (v : SceneView) (e : Event) :
  SceneJsxView.Scene s = JSLib.Ok v -> In e (UI.clickable v) ->
  arg_in_range e.
Proof.
  intros H Hin. enumerate_views s v H; vm_compute in Hin;
    repeat (destruct Hin as [<- | Hin]); try contradiction;
    first [exact I | range_by_computation].
Qed.

(** X12.  On the page the index never leaves the catalog and the render
    never throws: every state reached from the mount state by clicks the
    rendered tree can deliver and by loads of the rendered model has
    [currentModelIndex] in [0, models.length) and renders to a tree. *)
Theorem page_never_throws (s : SceneState) :
  UI.reachable s ->
  index_valid s /\ exists v, SceneJsxView.Scene s = JSLib.Ok v.
Proof.
  intros Hr.
  assert (Hv : index_valid s).
  { induction Hr as [ | s v e _ IH Hs Hin | s v _ IH Hs].
    - exact mount_valid.
    - apply step_preserves_valid; [ | exact IH].
      exact (clickable_in_range s v e Hs Hin).
    - destruct (view_key_and_path s v Hs) as [_ [-> _]].
      apply step_preserves_valid; [exact I | exact IH]. }
  split; [exact Hv | exact (Scene_valid_ok s Hv)].
Qed.

Lemma page_never_throws_witness :
  index_valid (SceneJsx.step ModelLoaded SceneJsx.mount) /\
  exists v,
    SceneJsxView.Scene (SceneJsx.step ModelLoaded SceneJsx.mount) =
    JSLib.Ok v.
Proof.
  destruct (SceneJsxView.Scene SceneJsx.mount) as [v | ] eqn:Hs;
    [ | vm_compute in Hs; discriminate Hs].
  assert (Hl : onLoad (model v) = ModelLoaded).
  { vm_compute in Hs. injection Hs as <-. reflexivity. }
  pose proof (UI.reach_load SceneJsx.mount v UI.reach_mount Hs) as Hr.
  rewrite Hl in Hr.
  exact (page_never_throws _ Hr).
Defined.

(** X13.  The props [Model] hands to [<primitive>] for the catalog's
    assets: position [0, -1, 0] exactly for the fourth and the fifth
    ("Wooden Box", "VR") and rotation [0, -Math.PI / 4, 0] exactly for the
    first ("Laptop"), [0, 0, 0] otherwise; the substring tests on the path
    hit no other entry.  From there on the callback [Model] registers with
    [useFrame] turns the object: with an empty ref it does nothing, and
    otherwise it adds delta * 0.5 to rotation.y and leaves the position and
    the x and z of the rotation as they are. *)
Theorem Model_placement_in_catalog (s : SceneState) (v : SceneView) :
  SceneJsxView.Scene s = JSLib.Ok v ->
  Primitive.position
    (primitive (SceneJsxView.Model (modelPath (model v)))) =
  (if (currentModelIndex s =? 3) || (currentModelIndex s =? 4)
   then [0; -1; 0]%float else [0; 0; 0]%float) /\
  Primitive.rotation
    (primitive (SceneJsxView.Model (modelPath (model v)))) =
  (if currentModelIndex s =? 0
   then [0; - JSLib.Math_PI / 4; 0]%float else [0; 0; 0]%float) /\
  exists frame,
    useFrame (SceneJsxView.Model (modelPath (model v))) = Some frame /\
    (forall delta, frame None delta = None) /\
    (forall object delta,
       exists object',
         frame (Some object) delta = Some object' /\
         THREE.position object' = THREE.position object /\
         THREE.x (THREE.rotation object') =
         THREE.x (THREE.rotation object) /\
         THREE.z (THREE.rotation object') =
         THREE.z (THREE.rotation object) /\
         THREE.y (THREE.rotation object') =
         (THREE.y (THREE.rotation object) + delta * 0.5)%float).
Proof.
  intros H.
  assert (Hframe :
    exists frame,
      useFrame (SceneJsxView.Model (modelPath (model v))) = Some frame /\
      (forall delta, frame None delta = None) /\
      (forall object delta,
         exists object',
           frame (Some object) delta = Some object' /\
           THREE.position object' = THREE.position object /\
           THREE.x (THREE.rotation object') =
           THREE.x (THREE.rotation object) /\
           THREE.z (THREE.rotation object') =
           THREE.z (THREE.rotation object) /\
           THREE.y (THREE.rotation object') =
           (THREE.y (THREE.rotation object) + delta * 0.5)%float)).
  { exists SceneJsxView.Model_frame.
    split; [reflexivity | split; [reflexivity | ]].
    intros object delta. eexists. split; [reflexivity | ].
    repeat split. }
  enumerate_views s v H;
    (split; [reflexivity | split; [reflexivity | exact Hframe]]).
Qed.

Lemma Model_placement_in_catalog_witness :
  let s := {| currentModelIndex := 0; isLoading := true; key := 0 |} in
  match SceneJsxView.Scene s with
  | JSLib.Ok v =>
      Primitive.rotation
        (primitive (SceneJsxView.Model (modelPath (model v)))) =
      [0; - JSLib.Math_PI / 4; 0]%float
  | JSLib.TypeError => False
  end.
Proof.
  cbv zeta.
  destruct (SceneJsxView.Scene
              {| currentModelIndex := 0; isLoading := true; key := 0 |})
    as [v | ] eqn:Hs; [ | vm_compute in Hs; discriminate Hs].
  exact (proj1 (proj2 (Model_placement_in_catalog _ v Hs))).
Defined.

(** X14.  [src/unnamed/part_000] renders the same tree as
    [src/src/Scene.jsx] up to class names: for every state both throw or
    both return trees with the same title, spinner, canvas key, camera,
    model, buttons' handlers, disabled flags, labels and children, and the
    same buttons are highlighted.  The two [Model] components hand the same
    props to [<primitive>] for every path; they differ in that only the one
    of [src/src/Scene.jsx] registers a frame callback. *)
Theorem part_000_same_view (s : SceneState) :
  UI.unstyled_result (SceneJsxView.Scene s) =
  UI.unstyled_result (Part000View.Scene s) /\
  (forall v w,
     SceneJsxView.Scene s = JSLib.Ok v -> Part000View.Scene s = JSLib.Ok w ->
     List.map UI.highlighted (UI.buttons v) =
     List.map UI.highlighted (UI.buttons w)) /\
  (forall modelPath : string,
     primitive (SceneJsxView.Model modelPath) =
     primitive (Part000View.Model modelPath) /\
     useFrame (SceneJsxView.Model modelPath) <> None /\
     useFrame (Part000View.Model modelPath) = None).
Proof.
  split; [ | split].
  - destruct (index_valid_dec s) as [Hv | Hn].
    + destruct (valid_index_cases s Hv) as [l [k [Hin Hs]]].
      rewrite Hs. cbn [In] in Hin.
      destruct Hin as [<- | [<- | [<- | [<- | [<- | []]]]]]; destruct l;
        vm_compute; reflexivity.
    + rewrite (Scene_invalid s Hn).
      unfold Part000View.Scene.
      change Part000.models with SceneJsx.models.
      destruct (JSLib.at_index SceneJsx.models (currentModelIndex s))
        as [m | ] eqn:Hm; [ | reflexivity].
      elim Hn. apply at_index_models. exists m. exact Hm.
  - intros v w Hs Hw. enumerate_views s v Hs;
      vm_compute in Hw; injection Hw as <-; reflexivity.
  - intros modelPath.
    split; [reflexivity | split; [discriminate | reflexivity]].
Qed.

Lemma part_000_same_view_witness :
  let s := {| currentModelIndex := 4; isLoading := false; key := 3 |} in
  match SceneJsxView.Scene s, Part000View.Scene s with
  | JSLib.Ok v, JSLib.Ok w =>
      List.map UI.highlighted (UI.buttons v) =
      List.map UI.highlighted (UI.buttons w)
  | _, _ => False
  end.
Proof.
  cbv zeta.
  destruct (SceneJsxView.Scene
              {| currentModelIndex := 4; isLoading := false; key := 3 |})
    as [v | ] eqn:Hs; [ | vm_compute in Hs; discriminate Hs].
  destruct (Part000View.Scene
              {| currentModelIndex := 4; isLoading := false; key := 3 |})
    as [w | ] eqn:Hw; [ | vm_compute in Hw; discriminate Hw].
  exact (proj1 (proj2 (part_000_same_view _)) v w Hs Hw).
Defined.

(** X15.  The three class expressions agree on the cursor: every button of
    the tree carries [cursor-not-allowed] exactly when it is disabled and
    [cursor-pointer] exactly when it is not. *)
Theorem cursor_class_matches_disabled (s : SceneState) (v : SceneView) :
  SceneJsxView.Scene s = JSLib.Ok v ->
  Forall (fun b =>
            JSLib.includes (className b) "cursor-not-allowed" = disabled b /\
            JSLib.includes (className b) "cursor-pointer" =
            negb (disabled b))
         (UI.buttons v).
Proof.
  intros H. enumerate_views s v H;
    repeat (apply Forall_cons; [split; reflexivity | ]); apply Forall_nil.
Qed.

Lemma cursor_class_matches_disabled_witness :
  match SceneJsxView.Scene SceneJsx.mount with
  | JSLib.Ok v =>
      Forall (fun b =>
                JSLib.includes (className b) "cursor-not-allowed" =
                disabled b /\
                JSLib.includes (className b) "cursor-pointer" =
                negb (disabled b))
             (UI.buttons v)
  | JSLib.TypeError => False
  end.
Proof.
  destruct (SceneJsxView.Scene SceneJsx.mount) as [v | ] eqn:Hs;
    [ | vm_compute in Hs; discriminate Hs].
  exact (cursor_class_matches_disabled _ v Hs).
Defined.

(** X16.  The arrows do what they show.  In a tree rendered while not
    loading, the button with the left chevron moves [currentModelIndex] to
    (index - 1) mod models.length and the one with the right chevron to
    (index + 1) mod models.length. *)
Theorem arrows_move_by_one (s : SceneState) (v : SceneView) :
  SceneJsxView.Scene s = JSLib.Ok v -> isLoading s = false ->
  children (leftButton v) = IconChild ChevronLeft /\
  currentModelIndex (SceneJsx.step (onClick (leftButton v)) s) =
  (currentModelIndex s - 1) mod SceneJsx.models_length /\
  children (rightButton v) = IconChild ChevronRight /\
  currentModelIndex (SceneJsx.step (onClick (rightButton v)) s) =
  (currentModelIndex s + 1) mod SceneJsx.models_length.
Proof.
  intros H Hl. enumerate_views s v H; try discriminate Hl;
    repeat split.
Qed.

Lemma arrows_move_by_one_witness :
  let s := {| currentModelIndex := 0; isLoading := false; key := 0 |} in
  match SceneJsxView.Scene s with
  | JSLib.Ok v =>
      currentModelIndex (SceneJsx.step (onClick (leftButton v)) s) = 4
  | JSLib.TypeError => False
  end.
Proof.
  cbv zeta.
  destruct (SceneJsxView.Scene
              {| currentModelIndex := 0; isLoading := false; key := 0 |})
    as [v | ] eqn:Hs; [ | vm_compute in Hs; discriminate Hs].
  exact (proj1 (proj2 (arrows_move_by_one _ v Hs eq_refl))).
Defined.
